(** * Customer support chatbot: the query pipeline, its HTTP front end and
      the start-up checks, embedded from the Python sources.

    Sources embedded here:
    - [main.py]: [invoke_chain], the handlers [main], [chat],
      [serve_frontend] and their routes;
    - [prompt_library/prompt.py]: [PROMPT_TEMPLATES];
    - [setup_database.py]: [check_environment].

    The vector store, the hosted models and the web framework are external
    collaborators: they appear as a [Backend] record of operations on an
    abstract world, and every call the sources make on them is recorded in
    a trace of events. *)

From stdpp Require Import base option list strings pretty gmap.
From Stdlib Require Import Ascii ZArith Lia.

Local Open Scope string_scope.
Local Open Scope Z_scope.
Local Open Scope list_scope.

(* ===================================================================== *)
(** ** Python strings *)
(* ===================================================================== *)

(** [needle in hay] on Python strings, as a proposition. *)
Definition Contains (needle hay : string) : Prop :=
  exists pre post, hay = pre +:+ needle +:+ post.

(** [hay.startswith(p)]. *)
Fixpoint startswith (p hay : string) : bool :=
  match p, hay with
  | EmptyString, _ => true
  | String a p', String b hay' => if Ascii.eqb a b then startswith p' hay' else false
  | String _ _, EmptyString => false
  end.

(** [needle in hay], executable. *)
Fixpoint py_in (needle hay : string) : bool :=
  startswith needle hay ||
  match hay with
  | EmptyString => false
  | String _ hay' => py_in needle hay'
  end.

(** [sep.join(parts)]. *)
Fixpoint join (sep : string) (parts : list string) : string :=
  match parts with
  | [] => ""
  | [p] => p
  | p :: rest => p +:+ sep +:+ join sep rest
  end.

(** A byte that continues a character of a text in UTF-8. *)
Definition is_continuation (c : ascii) : bool :=
  (128 <=? nat_of_ascii c)%nat && (nat_of_ascii c <? 192)%nat.

(** [s[:n]]: the first [n] characters of [s].  A string holds the bytes of
    a text in UTF-8, and a character is a byte that starts one together
    with the bytes that continue it. *)
Fixpoint py_take (n : nat) (s : string) {struct s} : string :=
  match s with
  | EmptyString => ""
  | String c s' =>
      if is_continuation c then String c (py_take n s')
      else
        match n with
        | O => ""
        | S n' => String c (py_take n' s')
        end
  end.

(* ===================================================================== *)
(** ** Exceptions, documents, messages *)
(* ===================================================================== *)

(** An instance of Python's [Exception]: its class and [str(e)]. *)
Record py_exception := PyExc { exc_class : string; exc_str : string }.

(** The result of a call that may raise. *)
Inductive outcome (A : Type) : Type :=
| Ret (a : A)
| Raise (e : py_exception).
Arguments Ret {A} a.
Arguments Raise {A} e.

(** A retrieved document: text and metadata. *)
Record Document := { page_content : string; metadata : list (string * string) }.

(** The chat model's reply. *)
Record AIMessage := { content : string }.

(** [StrOutputParser()]: the text of the reply. *)
Definition StrOutputParser (m : AIMessage) : string := content m.

(* ===================================================================== *)
(** ** Prompt templates (prompt_library/prompt.py) *)
(* ===================================================================== *)

Definition product_bot_template : string :=
"
    You are an expert EcommerceBot specialized in product recommendations and handling customer queries.
    Analyze the provided product titles, ratings, and reviews to provide accurate, helpful responses.
    Stay relevant to the context, and keep your answers concise and informative.

    IMPORTANT: If the context is empty or contains no relevant product information, politely explain that you don't have access to product data and suggest the user try a different search term or contact support.

    CONTEXT:
    {context}

    QUESTION: {question}

    YOUR ANSWER:
    ".

Definition PROMPT_TEMPLATES : gmap string string :=
  {[ "product_bot" := product_bot_template ]}.

(** A parsed format string: literal text and named replacement fields. *)
Inductive piece :=
| Lit (text : string)
| Field (name : string).

Definition lbrace : Ascii.ascii := "{"%char.
Definition rbrace : Ascii.ascii := "}"%char.

Definition flush (lit : string) (rest : list piece) : list piece :=
  match lit with
  | EmptyString => rest
  | _ => Lit lit :: rest
  end.

(** The format-string syntax the template uses: [{name}] is a field, [{{]
    and [}}] are literal braces, a lone brace is an error.  [lit] is the
    literal text read so far, [field] the name being read inside braces. *)
Fixpoint parse_format (s : string) (lit : string) (field : option string)
  : option (list piece) :=
  match s with
  | EmptyString =>
      match field with
      | None => Some (flush lit [])
      | Some _ => None
      end
  | String c s' =>
      match field with
      | Some name =>
          if Ascii.eqb c rbrace then
            rest ← parse_format s' "" None; Some (Field name :: rest)
          else if Ascii.eqb c lbrace then None
          else parse_format s' lit (Some (name +:+ String c ""))
      | None =>
          if Ascii.eqb c lbrace then
            match s' with
            | String c' s'' =>
                if Ascii.eqb c' lbrace then parse_format s'' (lit +:+ "{") None
                else rest ← parse_format s' "" (Some ""); Some (flush lit rest)
            | EmptyString => None
            end
          else if Ascii.eqb c rbrace then
            match s' with
            | String c' s'' =>
                if Ascii.eqb c' rbrace then parse_format s'' (lit +:+ "}") None
                else None
            | EmptyString => None
            end
          else parse_format s' (lit +:+ String c "") None
      end
  end.

(** The values the chain passes to the prompt. *)
Inductive pyval :=
| PyStr (s : string)
| PyDocs (docs : list Document).

(** What the external collaborators do: the retriever object and the model
    loader of main.py, the handles they return, the library's [repr] of a
    document, and whether a path names a file of the host.  [world] is
    whatever state the collaborators keep (the memoized retriever, the
    contents of the vector store, the files, ...). *)
Record Backend := {
  world : Type;
  retriever_handle : Type;
  llm_handle : Type;
  be_load_retriever : world -> outcome retriever_handle * world;
  be_retriever_invoke :
    retriever_handle -> string -> world -> outcome (list Document) * world;
  be_load_llm : world -> outcome llm_handle * world;
  be_llm_invoke : llm_handle -> string -> world -> outcome AIMessage * world;
  repr_Document : Document -> string;
  be_isfile : world -> string -> bool
}.

(** [str(v)]: a string is itself, a list is its elements' [repr]s between
    brackets, separated by a comma and a space. *)
Definition py_str (B : Backend) (v : pyval) : string :=
  match v with
  | PyStr s => s
  | PyDocs docs => "[" +:+ join ", " (map (repr_Document B) docs) +:+ "]"
  end.

(** Substituting the keyword arguments, already turned into text by
    [str], into a parsed template; a field without an argument is a
    [KeyError]. *)
Fixpoint format_pieces (ps : list piece) (kwargs : gmap string string)
  : outcome string :=
  match ps with
  | [] => Ret ""
  | Lit text :: rest =>
      match format_pieces rest kwargs with
      | Ret s => Ret (text +:+ s)
      | Raise e => Raise e
      end
  | Field name :: rest =>
      match kwargs !! name with
      | None => Raise (PyExc "KeyError" name)
      | Some v =>
          match format_pieces rest kwargs with
          | Ret s => Ret (v +:+ s)
          | Raise e => Raise e
          end
      end
  end.

(* ===================================================================== *)
(** ** Effects: calls on the collaborators, recorded in a trace *)
(* ===================================================================== *)

Inductive event :=
| EvLoadRetriever
| EvSearch (query : string)
| EvLoadLlm
| EvGenerate (prompt : string)
| EvPrint (text : string).

Record state (B : Backend) := State { st_world : world B; st_trace : list event }.
Arguments State {B} _ _.
Arguments st_world {B} _.
Arguments st_trace {B} _.

(** A computation that reads and updates the state and returns or raises. *)
Definition M (B : Backend) (A : Type) : Type := state B -> outcome A * state B.

#[global] Instance M_ret (B : Backend) : MRet (M B) :=
  fun A a s => (Ret a, s).

#[global] Instance M_bind (B : Backend) : MBind (M B) :=
  fun A A' k m s =>
    match m s with
    | (Ret a, s') => k a s'
    | (Raise e, s') => (Raise e, s')
    end.

Definition raise {B A} (e : py_exception) : M B A := fun s => (Raise e, s).

(** [try: m  except Exception as e: h e]. *)
Definition try_except {B A} (m : M B A) (h : py_exception -> M B A) : M B A :=
  fun s =>
    match m s with
    | (Ret a, s') => (Ret a, s')
    | (Raise e, s') => h e s'
    end.

Definition emit {B} (ev : event) : M B unit :=
  fun s => (Ret tt, State (st_world s) (st_trace s ++ [ev])).

(** A call on a collaborator: the event is recorded, then the collaborator
    acts on the world. *)
Definition call {B A} (ev : event) (op : world B -> outcome A * world B) : M B A :=
  fun s =>
    let '(r, w') := op (st_world s) in
    (r, State w' (st_trace s ++ [ev])).

Definition print {B} (text : string) : M B unit := emit (EvPrint text).

Definition of_outcome {B A} (r : outcome A) : M B A := fun s => (r, s).

(* ===================================================================== *)
(** ** main.py: the query pipeline *)
(* ===================================================================== *)

(** [retriever_obj.load_retriever()]. *)
Definition load_retriever (B : Backend) : M B (retriever_handle B) :=
  call EvLoadRetriever (be_load_retriever B).

(** [retriever.invoke(query)]. *)
Definition retriever_invoke (B : Backend) (r : retriever_handle B) (query : string)
  : M B (list Document) :=
  call (EvSearch query) (be_retriever_invoke B r query).

(** [model_loader.load_llm()]. *)
Definition load_llm (B : Backend) : M B (llm_handle B) :=
  call EvLoadLlm (be_load_llm B).

(** [llm.invoke(prompt)]. *)
Definition llm_invoke (B : Backend) (l : llm_handle B) (prompt : string)
  : M B AIMessage :=
  call (EvGenerate prompt) (be_llm_invoke B l prompt).

(** [PROMPT_TEMPLATES[name]]. *)
Definition lookup_template {B} (name : string) : M B string :=
  match PROMPT_TEMPLATES !! name with
  | Some t => mret t
  | None => raise (PyExc "KeyError" name)
  end.

(** [ChatPromptTemplate.from_template(t)]. *)
Definition from_template {B} (t : string) : M B (list piece) :=
  match parse_format t "" None with
  | Some ps => mret ps
  | None => raise (PyExc "ValueError" "Single '{' or '}' encountered in format string")
  end.

(** [prompt.invoke({"context": docs, "question": query})]. *)
Definition prompt_invoke (B : Backend) (prompt : list piece)
    (docs : list Document) (query : string) : M B string :=
  of_outcome
    (format_pieces prompt
       (py_str B <$> <["context" := PyDocs docs]> (<["question" := PyStr query]> ∅))).

(** [chain.invoke(query)] for
    [{"context": retriever, "question": RunnablePassthrough()} | prompt | llm | StrOutputParser()]. *)
Definition chain_invoke (B : Backend) (retriever : retriever_handle B)
    (prompt : list piece) (llm : llm_handle B) (query : string) : M B string :=
  docs ← retriever_invoke B retriever query;
  text ← prompt_invoke B prompt docs query;
  message ← llm_invoke B llm text;
  mret (StrOutputParser message).

Definition NO_DOCUMENTS_MESSAGE : string :=
  "I'm sorry, I couldn't find any relevant product information for your query. Please try a different search term or make sure the product database has been populated.".

Definition error_message (e : py_exception) : string :=
  "I'm experiencing technical difficulties. Error: " +:+ exc_str e.

(** The diagnostic lines. *)
Definition found_line (test_docs : list Document) (query : string) : string :=
  "Retriever found " +:+ pretty (length test_docs)
    +:+ " documents for query: '" +:+ query +:+ "'".

Definition sample_line (d : Document) : string :=
  "Sample document: " +:+ py_take 100 (page_content d) +:+ "...".

Definition error_line (e : py_exception) : string :=
  "Error in invoke_chain: " +:+ exc_str e.

(** The body of the [try] block of [invoke_chain]. *)
Definition invoke_chain_try (B : Backend) (query : string) : M B string :=
  retriever ← load_retriever B;
  test_docs ← retriever_invoke B retriever query;
  print (found_line test_docs query);;
  if Nat.eqb (length test_docs) 0 then mret NO_DOCUMENTS_MESSAGE
  else
    match test_docs with
    | d :: _ => print (sample_line d)
    | [] => mret tt
    end;;
    template ← lookup_template "product_bot";
    prompt ← from_template template;
    llm ← load_llm B;
    chain_invoke B retriever prompt llm query.

Definition invoke_chain (B : Backend) (query : string) : M B string :=
  try_except (invoke_chain_try B query)
    (fun e =>
       print (error_line e);;
       mret (error_message e)).

(* ===================================================================== *)
(** ** main.py: the HTTP front end *)
(* ===================================================================== *)

(** A JSON object whose values are strings, as the handlers return. *)
Inductive json :=
| JObject (fields : list (string * string)).

Inductive http_body :=
| JsonBody (j : json)
| FileBody (path : string)
| PlainBody (text : string)
| MissingFields (locs : list (list string)).

(** An answer of the application: a status and a body, or the answer the
    framework gives to a request that no route of main.py handles (its
    documentation pages, the static files mounted under [/static],
    redirections, unknown paths and methods), which is not modelled. *)
Inductive response :=
| Response (status_code : Z) (body : http_body)
| FrameworkResponse.

Inductive request :=
| GET (path : string)
| POST (path : string) (form : list (string * string)).

Definition WELCOME_MESSAGE : string :=
  "Welcome to the Product Information Bot API. Use the /get endpoint to chat with the bot.".

(** [@app.get("/")  async def main()]. *)
Definition main {B : Backend} : M B json :=
  mret (JObject [("message", WELCOME_MESSAGE)]).

(** [@app.post("/get")  async def chat(msg)]. *)
Definition chat (B : Backend) (msg : string) : M B json :=
  result ← invoke_chain B msg;
  print ("Response: " +:+ result);;
  mret (JObject [("response", result)]).

(** [@app.get("/chat")  async def serve_frontend()]. *)
Definition serve_frontend {B : Backend} : M B http_body :=
  mret (FileBody "frontend/index.html").

(** The value of a form field as the handler receives it: the last value
    given to the field, if the form has the field. *)
Fixpoint form_get (name : string) (form : list (string * string)) : option string :=
  match form with
  | [] => None
  | (k, v) :: rest =>
      match form_get name rest with
      | Some v' => Some v'
      | None => if String.eqb k name then Some v else None
      end
  end.

(** The framework around a handler: the returned value is sent with status
    200, an exception escaping the handler is answered with status 500. *)
Definition respond {B : Backend} (handler : M B http_body) : M B response :=
  try_except (b ← handler; mret (Response 200 b))
    (fun _ => mret (Response 500 (PlainBody "Internal Server Error"))).

(** Sending the body: a file response whose file does not exist fails, and
    the failure is answered with status 500. *)
Definition send {B : Backend} (r : response) : M B response :=
  fun s =>
    match r with
    | Response 200 (FileBody path) =>
        if be_isfile B (st_world s) path then (Ret r, s)
        else (Ret (Response 500 (PlainBody "Internal Server Error")), s)
    | _ => (Ret r, s)
    end.

(** The answer to a request whose required form field is missing: status
    422, with the place of each missing field (of the body, the kind
    [missing] and the place are kept). *)
Definition validation_error (field : string) : response :=
  Response 422 (MissingFields [["body"; field]]).

(** The routes declared in main.py: [GET /], [POST /get], whose parameter
    [msg] is a required form field handed to [chat] as it is, the empty
    string included, and [GET /chat]. *)
Definition app (B : Backend) (req : request) : M B response :=
  match req with
  | GET path =>
      if String.eqb path "/" then respond (j ← main; mret (JsonBody j))
      else if String.eqb path "/chat" then r ← respond serve_frontend; send r
      else mret FrameworkResponse
  | POST path form =>
      if String.eqb path "/get" then
        match form_get "msg" form with
        | Some msg => respond (j ← chat B msg; mret (JsonBody j))
        | None => mret (validation_error "msg")
        end
      else mret FrameworkResponse
  end.

(* ===================================================================== *)
(** ** setup_database.py: the environment check *)
(* ===================================================================== *)

(** [os.environ]: variable names to values. *)
Abbreviation environment := (gmap string string).

(** [load_dotenv()]: the variables of the [.env] file are added to the
    environment; a variable the environment already has keeps its value. *)
Definition load_dotenv (dotenv environ : environment) : environment :=
  environ ∪ dotenv.

(** [os.getenv(var)]. *)
Definition getenv (environ : environment) (var : string) : option string :=
  environ !! var.

(** The truth value of [os.getenv(var)]: [None] and the empty string are
    false. *)
Definition truthy (v : option string) : bool :=
  match v with
  | Some (String _ _) => true
  | Some EmptyString => false
  | None => false
  end.

Definition required_vars : list string :=
  ["GOOGLE_API_KEY"; "ASTRA_DB_API_ENDPOINT"; "ASTRA_DB_APPLICATION_TOKEN";
   "ASTRA_DB_KEYSPACE"].

(** The loop [for var in vars: if not os.getenv(var): missing_vars.append(var)]. *)
Definition collect_missing (environ : environment) (vars : list string) : list string :=
  fold_left
    (fun missing_vars var =>
       if truthy (getenv environ var) then missing_vars else (missing_vars ++ [var])%list)
    vars [].

Definition missing_line (var : string) : string := "   - " +:+ var.

(** [check_environment()]: the returned flag and the printed lines. *)
Definition check_environment (dotenv environ : environment) : bool * list string :=
  let environ := load_dotenv dotenv environ in
  let missing_vars := collect_missing environ required_vars in
  match missing_vars with
  | _ :: _ =>
      (false,
       (["❌ Missing environment variables:"]
          ++ map missing_line missing_vars
          ++ ["
📝 Please create a .env file with your credentials.";
              "   You can use .env.template as a reference."])%list)
  | [] => (true, ["✅ All environment variables are set."])
  end.

(** ['...'] around a name, and [str] of a list of names. *)
Definition py_repr_name (s : string) : string := "'" +:+ s +:+ "'".
Definition py_str_names (l : list string) : string :=
  "[" +:+ join ", " (map py_repr_name l) +:+ "]".

(* ===================================================================== *)
(** ** Collaborators whose sources are not part of this development *)
(* ===================================================================== *)

(** A value of the settings document. *)
Inductive cfg_value :=
| CfgStr (s : string)
| CfgInt (n : Z).

(** The settings document: sections of named values. *)
Abbreviation config := (gmap string (gmap string cfg_value)).

(** Modelled from the spec: [ModelLoader] of utils/model_loader.py, whose
    source is missing.  The model provider "must fail at construction time
    (before any call) if a required API credential is absent from the
    environment, naming the missing variable(s)"; its credential is the one
    "for the model provider", [GOOGLE_API_KEY], and the message has the form
    its test reads: [Missing environment variables: ['GOOGLE_API_KEY']]. *)
Definition ModelLoader_required_vars : list string := ["GOOGLE_API_KEY"].

Record ModelLoader := { ml_config : config }.

Definition ModelLoader_init (cfg : config) (dotenv environ : environment)
  : outcome ModelLoader :=
  let environ := load_dotenv dotenv environ in
  let missing_vars := collect_missing environ ModelLoader_required_vars in
  match missing_vars with
  | _ :: _ =>
      Raise (PyExc "EnvironmentError"
               ("Missing environment variables: " +:+ py_str_names missing_vars))
  | [] => Ret {| ml_config := cfg |}
  end.

(** Modelled from the spec: [Retriever.load_retriever] of
    retriever/retrieval.py, whose source is missing.  The handle is
    "lazily-initialized, memoized", "bound to the configured collection,
    embedding function, and top-k (default 3 if unspecified in
    configuration)"; the top-k is passed as [search_kwargs={"k": top_k}]. *)
Record retriever_spec := {
  rs_collection_name : cfg_value;
  rs_search_kwargs : gmap string cfg_value
}.

Record Retriever := {
  r_config : config;
  r_retriever : option retriever_spec
}.

Definition DEFAULT_TOP_K : cfg_value := CfgInt 3.

Definition configured_top_k (cfg : config) : cfg_value :=
  match cfg !! "retriever" with
  | None => DEFAULT_TOP_K
  | Some section => default DEFAULT_TOP_K (section !! "top_k")
  end.

Definition Retriever_init (cfg : config) : Retriever :=
  {| r_config := cfg; r_retriever := None |}.

Definition Retriever_load_retriever (self : Retriever)
  : outcome retriever_spec * Retriever :=
  match r_retriever self with
  | Some handle => (Ret handle, self)
  | None =>
      match r_config self !! "astra_db" ≫= (.!! "collection_name") with
      | None => (Raise (PyExc "KeyError" "collection_name"), self)
      | Some name =>
          let handle :=
            {| rs_collection_name := name;
               rs_search_kwargs := {[ "k" := configured_top_k (r_config self) ]} |} in
          (Ret handle, {| r_config := r_config self; r_retriever := Some handle |})
      end
  end.

(** Modelled from the spec: [DataIngestion] of
    data_ingestion/ingestion_pipeline.py, whose source is missing.  The
    source table has "required columns {product_id, product_title, rating,
    summary, review}"; construction must "reject (fail with a
    data-validation error) if any required column is absent; error message
    must name the required column set", and "a missing source file fails
    with a not-found error before any network calls".  Running the job
    "embeds the text blob via the Model Provider and upserts it ... into
    the Vector Store Client", one document per row.  How a row is rendered
    to text is left to [render_row]; a failure of the provider during the
    run is not modelled. *)
Record table := { columns : list string; rows : list (gmap string string) }.

Definition REQUIRED_COLUMNS : list string :=
  ["product_id"; "product_title"; "rating"; "summary"; "review"].

Inductive ingestion_event :=
| EvEmbed (text : string)
| EvStoreWrite (text : string).

Record DataIngestion := { product_data : table }.

Definition has_column (t : table) (c : string) : bool :=
  existsb (String.eqb c) (columns t).

Definition columns_error : py_exception :=
  PyExc "ValueError"
    ("CSV must contain columns: {" +:+ join ", " (map py_repr_name REQUIRED_COLUMNS) +:+ "}").

Definition DataIngestion_init (source : option table)
  : outcome DataIngestion * list ingestion_event :=
  match source with
  | None => (Raise (PyExc "FileNotFoundError" "CSV file not found"), [])
  | Some t =>
      if forallb (has_column t) REQUIRED_COLUMNS
      then (Ret {| product_data := t |}, [])
      else (Raise columns_error, [])
  end.

Definition run_pipeline (render_row : gmap string string -> string)
    (self : DataIngestion) : nat * list ingestion_event :=
  let texts := map render_row (rows (product_data self)) in
  (length texts, flat_map (fun text => [EvEmbed text; EvStoreWrite text]) texts).

(** [populate_database()] of setup_database.py: the returned flag, the
    printed lines and the provider calls made. *)
Definition populate_database (render_row : gmap string string -> string)
    (source : option table) : bool * list string * list ingestion_event :=
  match DataIngestion_init source with
  | (Ret ingestion, evs) =>
      let '(_, evs') := run_pipeline render_row ingestion in
      (true, ["🚀 Starting data ingestion..."; "✅ Database populated successfully!"],
       (evs ++ evs')%list)
  | (Raise e, evs) =>
      (false, ["🚀 Starting data ingestion...";
               "❌ Error during data ingestion: " +:+ exc_str e], evs)
  end.

(* ===================================================================== *)
(** ** Scripted collaborators, as the tests' mocks *)
(* ===================================================================== *)

(** What each call answers: [sc_search n] is the answer of the [n]-th
    similarity search (counted from 0). *)
Record script := {
  sc_load_retriever : outcome unit;
  sc_search : nat -> outcome (list Document);
  sc_load_llm : outcome unit;
  sc_generate : string -> outcome AIMessage
}.

(** The world of a scripted backend counts the searches made.  Its [repr]
    of a document is the library's for a document without metadata whose
    text needs no escaping, and every file asked for exists. *)
Definition scripted (sc : script) : Backend := {|
  world := nat;
  retriever_handle := unit;
  llm_handle := unit;
  be_load_retriever := fun w => (sc_load_retriever sc, w);
  be_retriever_invoke := fun _ _ w => (sc_search sc w, S w);
  be_load_llm := fun w => (sc_load_llm sc, w);
  be_llm_invoke := fun _ prompt w => (sc_generate sc prompt, w);
  repr_Document := fun d => "Document(metadata={}, page_content='" +:+ page_content d +:+ "')";
  be_isfile := fun _ _ => true
|}.

Definition doc (text : string) : Document :=
  {| page_content := text; metadata := [] |}.

(** The retriever finds one document and the model answers. *)
Definition script_success : script := {|
  sc_load_retriever := Ret tt;
  sc_search := fun _ => Ret [doc "Test product content"];
  sc_load_llm := Ret tt;
  sc_generate := fun _ => Ret {| content := "AI response" |}
|}.

(** The retriever finds nothing. *)
Definition script_no_documents : script := {|
  sc_load_retriever := Ret tt;
  sc_search := fun _ => Ret [];
  sc_load_llm := Ret tt;
  sc_generate := fun _ => Ret {| content := "AI response" |}
|}.

(** Creating the retriever raises. *)
Definition script_exception : script := {|
  sc_load_retriever := Raise (PyExc "Exception" "Test error");
  sc_search := fun _ => Ret [];
  sc_load_llm := Ret tt;
  sc_generate := fun _ => Ret {| content := "AI response" |}
|}.

(** The retriever finds two documents. *)
Definition script_two_documents : script := {|
  sc_load_retriever := Ret tt;
  sc_search := fun _ => Ret [doc "Wireless Headphones"; doc "Gaming Laptop"];
  sc_load_llm := Ret tt;
  sc_generate := fun _ => Ret {| content := "AI response" |}
|}.

(** The settings documents and the table of the tests. *)
Definition config_without_retriever : config :=
  {[ "astra_db" := {[ "collection_name" := CfgStr "test_collection" ]} ]}.

Definition config_top_k_5 : config :=
  <[ "retriever" := {[ "top_k" := CfgInt 5 ]} ]> config_without_retriever.

Definition invalid_table : table := {|
  columns := ["product_id"; "title"; "score"];
  rows := [ {[ "product_id" := "PROD001"; "title" := "Test Product"; "score" := "4.5" ]} ]
|}.

(** The environments of the tests: only the model provider's key is set;
    every variable is set but the model provider's key is empty. *)
Definition env_only_google : environment :=
  {[ "GOOGLE_API_KEY" := "test_key" ]}.

Definition env_empty_google : environment :=
  {[ "GOOGLE_API_KEY" := "";
     "ASTRA_DB_API_ENDPOINT" := "https://test.endpoint.com";
     "ASTRA_DB_APPLICATION_TOKEN" := "test_token";
     "ASTRA_DB_KEYSPACE" := "test_keyspace" ]}.

(* ===================================================================== *)
(** ** Observations on a run *)
(* ===================================================================== *)

(** Running a computation from a world, with an empty trace. *)
Definition run {B A} (m : M B A) (w : world B) : outcome A * state B :=
  m (State w []).

(** The prompts sent to the generation model. *)
Definition generations (t : list event) : list string :=
  omap (fun ev => match ev with EvGenerate p => Some p | _ => None end) t.

(** The queries sent to the similarity search. *)
Definition searches (t : list event) : list string :=
  omap (fun ev => match ev with EvSearch q => Some q | _ => None end) t.

(** The outbound provider calls: similarity searches and generations. *)
Definition is_provider_call (ev : event) : bool :=
  match ev with
  | EvSearch _ | EvGenerate _ => true
  | EvLoadRetriever | EvLoadLlm | EvPrint _ => false
  end.

Definition provider_calls (t : list event) : list event :=
  List.filter is_provider_call t.

(** The literal text of the [product_bot] template before, between and
    after its two fields. *)
Definition prompt_head : string :=
"
    You are an expert EcommerceBot specialized in product recommendations and handling customer queries.
    Analyze the provided product titles, ratings, and reviews to provide accurate, helpful responses.
    Stay relevant to the context, and keep your answers concise and informative.

    IMPORTANT: If the context is empty or contains no relevant product information, politely explain that you don't have access to product data and suggest the user try a different search term or contact support.

    CONTEXT:
    ".

Definition prompt_middle : string :=
"

    QUESTION: ".

Definition prompt_tail : string :=
"

    YOUR ANSWER:
    ".

(** The parsed [product_bot] template. *)
Definition product_bot_prompt : list piece :=
  match parse_format product_bot_template "" None with
  | Some ps => ps
  | None => []
  end.

(** The rendered [product_bot] prompt for a context text and a question. *)
Definition render_product_bot (context question : string) : outcome string :=
  format_pieces product_bot_prompt
    (<["context" := context]> (<["question" := question]> ∅)).

(** The prompt the chain renders from the documents its own similarity
    search returned: the context is [str] of the list of documents. *)
Definition chain_prompt (B : Backend) (docs : list Document) (query : string) : string :=
  prompt_head +:+ py_str B (PyDocs docs) +:+ prompt_middle +:+ query +:+ prompt_tail.

(** The prompt as the specification words it: the context is "the full
    concatenated text of the retrieved documents". *)
Definition concatenated_context (docs : list Document) : string :=
  String.concat "" (map page_content docs).

Definition spec_prompt (docs : list Document) (question : string) : outcome string :=
  render_product_bot (concatenated_context docs) question.

(** The specification's count of provider calls: one similarity search and
    one generation. *)
Definition one_search_one_generation (t : list event) : Prop :=
  exists query prompt, provider_calls t = [EvSearch query; EvGenerate prompt].

(** Some step of the pipeline raises [e] when [invoke_chain query] runs from
    world [w]: the steps before it returned. *)
Inductive step_raises (B : Backend) (query : string) (w : world B)
    (e : py_exception) : Prop :=
| raises_load_retriever w1 :
    be_load_retriever B w = (Raise e, w1) ->
    step_raises B query w e
| raises_first_search r w1 w2 :
    be_load_retriever B w = (Ret r, w1) ->
    be_retriever_invoke B r query w1 = (Raise e, w2) ->
    step_raises B query w e
| raises_load_llm r w1 docs w2 w3 :
    be_load_retriever B w = (Ret r, w1) ->
    be_retriever_invoke B r query w1 = (Ret docs, w2) ->
    docs <> [] ->
    be_load_llm B w2 = (Raise e, w3) ->
    step_raises B query w e
| raises_chain_search r w1 docs w2 l w3 w4 :
    be_load_retriever B w = (Ret r, w1) ->
    be_retriever_invoke B r query w1 = (Ret docs, w2) ->
    docs <> [] ->
    be_load_llm B w2 = (Ret l, w3) ->
    be_retriever_invoke B r query w3 = (Raise e, w4) ->
    step_raises B query w e
| raises_generation r w1 docs w2 l w3 docs' w4 prompt w5 :
    be_load_retriever B w = (Ret r, w1) ->
    be_retriever_invoke B r query w1 = (Ret docs, w2) ->
    docs <> [] ->
    be_load_llm B w2 = (Ret l, w3) ->
    be_retriever_invoke B r query w3 = (Ret docs', w4) ->
    render_product_bot (py_str B (PyDocs docs')) query = Ret prompt ->
    be_llm_invoke B l prompt w4 = (Raise e, w5) ->
    step_raises B query w e
| raises_rendering r w1 docs w2 l w3 docs' w4 :
    be_load_retriever B w = (Ret r, w1) ->
    be_retriever_invoke B r query w1 = (Ret docs, w2) ->
    docs <> [] ->
    be_load_llm B w2 = (Ret l, w3) ->
    be_retriever_invoke B r query w3 = (Ret docs', w4) ->
    render_product_bot (py_str B (PyDocs docs')) query = Raise e ->
    step_raises B query w e.

(** The events of a run of [invoke_chain] from world [w]. *)
Definition trace_of (B : Backend) (query : string) (w : world B) : list event :=
  st_trace (snd (run (invoke_chain B query) w)).

(** The runs of [invoke_chain query] from world [w]: what the collaborators
    answer on each path, the returned text, the final world and the
    events. *)
Inductive run_path (B : Backend) (query : string) (w : world B)
  : outcome string * state B -> Prop :=
| path_load_retriever_raises e w1 :
    be_load_retriever B w = (Raise e, w1) ->
    run_path B query w
      (Ret (error_message e),
       State w1 [EvLoadRetriever; EvPrint (error_line e)])
| path_probe_raises r w1 e w2 :
    be_load_retriever B w = (Ret r, w1) ->
    be_retriever_invoke B r query w1 = (Raise e, w2) ->
    run_path B query w
      (Ret (error_message e),
       State w2 [EvLoadRetriever; EvSearch query; EvPrint (error_line e)])
| path_no_documents r w1 w2 :
    be_load_retriever B w = (Ret r, w1) ->
    be_retriever_invoke B r query w1 = (Ret [], w2) ->
    run_path B query w
      (Ret NO_DOCUMENTS_MESSAGE,
       State w2 [EvLoadRetriever; EvSearch query; EvPrint (found_line [] query)])
| path_load_llm_raises r w1 d docs w2 e w3 :
    be_load_retriever B w = (Ret r, w1) ->
    be_retriever_invoke B r query w1 = (Ret (d :: docs), w2) ->
    be_load_llm B w2 = (Raise e, w3) ->
    run_path B query w
      (Ret (error_message e),
       State w3 [EvLoadRetriever; EvSearch query;
                 EvPrint (found_line (d :: docs) query); EvPrint (sample_line d);
                 EvLoadLlm; EvPrint (error_line e)])
| path_chain_search_raises r w1 d docs w2 l w3 e w4 :
    be_load_retriever B w = (Ret r, w1) ->
    be_retriever_invoke B r query w1 = (Ret (d :: docs), w2) ->
    be_load_llm B w2 = (Ret l, w3) ->
    be_retriever_invoke B r query w3 = (Raise e, w4) ->
    run_path B query w
      (Ret (error_message e),
       State w4 [EvLoadRetriever; EvSearch query;
                 EvPrint (found_line (d :: docs) query); EvPrint (sample_line d);
                 EvLoadLlm; EvSearch query; EvPrint (error_line e)])
| path_generation_raises r w1 d docs w2 l w3 docs' w4 e w5 :
    be_load_retriever B w = (Ret r, w1) ->
    be_retriever_invoke B r query w1 = (Ret (d :: docs), w2) ->
    be_load_llm B w2 = (Ret l, w3) ->
    be_retriever_invoke B r query w3 = (Ret docs', w4) ->
    be_llm_invoke B l (chain_prompt B docs' query) w4 = (Raise e, w5) ->
    run_path B query w
      (Ret (error_message e),
       State w5 [EvLoadRetriever; EvSearch query;
                 EvPrint (found_line (d :: docs) query); EvPrint (sample_line d);
                 EvLoadLlm; EvSearch query;
                 EvGenerate (chain_prompt B docs' query); EvPrint (error_line e)])
| path_success r w1 d docs w2 l w3 docs' w4 message w5 :
    be_load_retriever B w = (Ret r, w1) ->
    be_retriever_invoke B r query w1 = (Ret (d :: docs), w2) ->
    be_load_llm B w2 = (Ret l, w3) ->
    be_retriever_invoke B r query w3 = (Ret docs', w4) ->
    be_llm_invoke B l (chain_prompt B docs' query) w4 = (Ret message, w5) ->
    run_path B query w
      (Ret (content message),
       State w5 [EvLoadRetriever; EvSearch query;
                 EvPrint (found_line (d :: docs) query); EvPrint (sample_line d);
                 EvLoadLlm; EvSearch query;
                 EvGenerate (chain_prompt B docs' query)]).


(** The probe finds a document, the search of the chain finds nothing. *)
Definition script_vanishing : script := {|
  sc_load_retriever := Ret tt;
  sc_search := fun n =>
    match n with
    | O => Ret [doc "Test product content"]
    | S _ => Ret []
    end;
  sc_load_llm := Ret tt;
  sc_generate := fun _ => Ret {| content := "AI response" |}
|}.

(** The model fails. *)
Definition script_generation_fails : script := {|
  sc_load_retriever := Ret tt;
  sc_search := fun _ => Ret [doc "Test product content"];
  sc_load_llm := Ret tt;
  sc_generate := fun _ => Raise (PyExc "Exception" "quota exceeded")
|}.

(* ===================================================================== *)
(** ** setup_database.py: the retriever test and the set-up script *)
(* ===================================================================== *)

Definition TEST_QUERY : string := "Can you suggest good budget laptops?".

(** [test_retriever()]: the returned flag and the printed lines.
    [call_retriever] is what [Retriever().call_retriever] answers, the
    construction of the retriever included; the import of the module is
    taken to succeed, as in [populate_database]. *)
Definition test_retriever (call_retriever : string -> outcome (list Document))
  : bool * list string :=
  match call_retriever TEST_QUERY with
  | Ret results =>
      (true,
       ["🔍 Testing retriever...";
        "✅ Retriever test successful! Found " +:+ pretty (length results)
          +:+ " documents."]
         ++ match results with
            | d :: _ =>
                ["📄 Sample result: " +:+ py_take 100 (page_content d) +:+ "..."]
            | [] => []
            end)
  | Raise e =>
      (false, ["🔍 Testing retriever..."; "❌ Retriever test failed: " +:+ exc_str e])
  end.

(** [s * n]. *)
Fixpoint py_repeat (s : string) (n : nat) : string :=
  match n with
  | O => ""
  | S n' => s +:+ py_repeat s n'
  end.

(** What a run of the set-up script did: the printed lines, the provider
    calls of the ingestion, and the questions with which the retriever test
    was run. *)
Record setup_run := {
  sr_printed : list string;
  sr_ingestion : list ingestion_event;
  sr_queries : list string
}.

Definition SETUP_BANNER : list string :=
  ["🤖 Customer Support Chatbot Setup"; py_repeat "=" 40].

Definition ENVIRONMENT_FAILED : string :=
"
🛑 Setup failed. Please configure your environment variables.".

Definition POPULATING : string :=
"
📊 Populating vector database...".

Definition POPULATE_FAILED : string :=
"
🛑 Setup failed. Could not populate database.".

Definition TESTING : string :=
"
🧪 Testing retriever functionality...".

Definition RETRIEVER_WARNING : list string :=
  ["
⚠️  Warning: Retriever test failed, but database was populated.";
   "   You may still be able to use the chatbot."].

Definition SETUP_COMPLETE : list string :=
  ["
🎉 Setup complete! Your chatbot should now have product information.";
   "💡 You can now run: uvicorn main:app --reload"].

(** [main()] of setup_database.py. *)
Definition setup_main (dotenv environ : environment)
    (render_row : gmap string string -> string) (source : option table)
    (call_retriever : string -> outcome (list Document)) : setup_run :=
  let '(env_ok, env_lines) := check_environment dotenv environ in
  if negb env_ok then
    {| sr_printed := SETUP_BANNER ++ env_lines ++ [ENVIRONMENT_FAILED];
       sr_ingestion := [];
       sr_queries := [] |}
  else
    let '(populated, populate_lines, evs) := populate_database render_row source in
    if negb populated then
      {| sr_printed :=
           SETUP_BANNER ++ env_lines ++ [POPULATING] ++ populate_lines
             ++ [POPULATE_FAILED];
         sr_ingestion := evs;
         sr_queries := [] |}
    else
      let '(tested, test_lines) := test_retriever call_retriever in
      {| sr_printed :=
           SETUP_BANNER ++ env_lines ++ [POPULATING] ++ populate_lines
             ++ [TESTING] ++ test_lines
             ++ (if negb tested then RETRIEVER_WARNING else [])
             ++ SETUP_COMPLETE;
         sr_ingestion := evs;
         sr_queries := [TEST_QUERY] |}.

(* ===================================================================== *)
(** ** run_tests.py: the test runner *)
(* ===================================================================== *)

(** The list [cmd] that [run_tests] builds. *)
Definition run_tests_command (test_type : string) (verbose coverage : bool)
    (output_format : string) : list string :=
  ["python"; "-m"; "pytest"]
    ++ (if String.eqb test_type "all" then [] else ["-m"; test_type])
    ++ (if verbose then ["-v"] else ["-q"])
    ++ (if coverage then
          ["--cov=."; "--cov-report=term-missing"]
            ++ (if String.eqb output_format "html" then ["--cov-report=html:htmlcov"]
                else if String.eqb output_format "xml" then ["--cov-report=xml"]
                else [])
        else [])
    ++ (if String.eqb output_format "junit" then ["--junit-xml=test-results.xml"]
        else [])
    ++ ["tests/"].

(** [run_tests(test_type, verbose, coverage, output_format)]: the returned
    code and the printed lines.  [subprocess_run cmd] is the return code of
    the process, or [None] when the program is not found. *)
Definition run_tests (test_type : string) (verbose coverage : bool)
    (output_format : string) (subprocess_run : list string -> option Z)
  : Z * list string :=
  let cmd := run_tests_command test_type verbose coverage output_format in
  match subprocess_run cmd with
  | Some returncode => (returncode, ["Running command: " +:+ join " " cmd])
  | None =>
      (1, ["Running command: " +:+ join " " cmd;
           "Error: pytest not found. Please install pytest:";
           "pip install pytest pytest-cov"])
  end.

(* ===================================================================== *)
(** ** tests/conftest.py: the mock vector store and the test markers *)
(* ===================================================================== *)

(** [l[:k]]: a negative [k] counts from the end. *)
Definition py_slice_to {A} (l : list A) (k : Z) : list A :=
  if 0 <=? k then take (Z.to_nat k) l
  else take (length l - Z.to_nat (- k)) l.

Record MockAstraDBVectorStore := {
  mock_collection_name : option string;
  mock_api_endpoint : option string;
  mock_token : option string;
  mock_namespace : option string;
  _documents : list Document
}.

(** The constructor, called with keyword arguments: an argument that is
    not given is [None]. *)
Definition MockAstraDBVectorStore_init (kwargs : gmap string string)
  : MockAstraDBVectorStore := {|
  mock_collection_name := kwargs !! "collection_name";
  mock_api_endpoint := kwargs !! "api_endpoint";
  mock_token := kwargs !! "token";
  mock_namespace := kwargs !! "namespace";
  _documents := []
|}.

(** [add_documents(documents)]: the returned ids and the updated store. *)
Definition add_documents (self : MockAstraDBVectorStore) (documents : list Document)
  : list string * MockAstraDBVectorStore :=
  ((fun i : nat => "doc_" +:+ pretty i) <$> seq 0 (length documents),
   {| mock_collection_name := mock_collection_name self;
      mock_api_endpoint := mock_api_endpoint self;
      mock_token := mock_token self;
      mock_namespace := mock_namespace self;
      _documents := _documents self ++ documents |}).

(** [similarity_search(query, k)]. *)
Definition similarity_search (self : MockAstraDBVectorStore) (query : string) (k : Z)
  : list Document :=
  py_slice_to (_documents self) k.

(** The retriever [as_retriever] returns: it keeps the keyword arguments
    and reads the store when it is invoked. *)
Record mock_retriever := { mr_search_kwargs : option (gmap string Z) }.

Definition as_retriever (search_kwargs : option (gmap string Z)) : mock_retriever :=
  {| mr_search_kwargs := search_kwargs |}.

(** [retriever.invoke(query)], on the store as it is at the call:
    [kwargs.get('search_kwargs', {}).get('k', 3)] is the number asked. *)
Definition mock_invoke (r : mock_retriever) (self : MockAstraDBVectorStore)
    (query : string) : list Document :=
  similarity_search self query
    (default 3 (default ∅ (mr_search_kwargs r) !! "k")).

(** [s.lower()] on ASCII text: the letters [A] to [Z] are lowered, every
    other byte is left as it is. *)
Definition ascii_lower (c : ascii) : ascii :=
  let n := nat_of_ascii c in
  if (65 <=? n)%nat && (n <=? 90)%nat then ascii_of_nat (n + 32) else c.

Fixpoint lower (s : string) : string :=
  match s with
  | EmptyString => EmptyString
  | String c s' => String (ascii_lower c) (lower s')
  end.

(** A collected test: its node id and the names of its markers. *)
Record test_item := { nodeid : string; markers : list string }.

Definition add_marker (item : test_item) (name : string) : test_item :=
  {| nodeid := nodeid item; markers := markers item ++ [name] |}.

Definition has_marker_in (names : list string) (item : test_item) : bool :=
  existsb (fun m => existsb (String.eqb m) names) (markers item).

(** The body of the loop of [pytest_collection_modifyitems]. *)
Definition modify_item (item : test_item) : test_item :=
  let item :=
    if py_in "integration" (lower (nodeid item))
    then add_marker item "integration" else item in
  let item :=
    if py_in "api" (lower (nodeid item)) || py_in "test_main" (nodeid item)
    then add_marker item "api" else item in
  let item :=
    if existsb (fun keyword => py_in keyword (lower (nodeid item)))
         ["full_workflow"; "integration"; "complete"]
    then add_marker item "slow" else item in
  if negb (has_marker_in ["integration"; "api"; "slow"] item)
  then add_marker item "unit" else item.

Definition pytest_collection_modifyitems (items : list test_item) : list test_item :=
  map modify_item items.

(** Whether a character occurs in a string. *)
Fixpoint has_char (c : ascii) (s : string) : bool :=
  match s with
  | EmptyString => false
  | String c' s' => Ascii.eqb c c' || has_char c s'
  end.

(* ===================================================================== *)
(** * Properties *)
(* ===================================================================== *)

(** ** Strings *)

Lemma append_nil (s : string) : "" +:+ s = s.
Proof. reflexivity. Qed.

Lemma append_cons (c : ascii) (a b : string) : String c a +:+ b = String c (a +:+ b).
Proof. reflexivity. Qed.

Lemma append_assoc (a b c : string) : (a +:+ b) +:+ c = a +:+ b +:+ c.
Proof.
  induction a as [|x a IH]; [reflexivity |].
  rewrite !append_cons. now rewrite IH.
Qed.

Lemma append_empty_r (a : string) : a +:+ "" = a.
Proof.
  induction a as [|x a IH]; [reflexivity |].
  rewrite append_cons. now rewrite IH.
Qed.

Lemma Contains_refl (s : string) : Contains s s.
Proof. exists "", "". now rewrite append_nil, append_empty_r. Qed.

Lemma Contains_suffix (pre s : string) : Contains s (pre +:+ s).
Proof. exists pre, "". now rewrite append_empty_r. Qed.

Lemma Contains_prefix (s post : string) : Contains s (s +:+ post).
Proof. exists "", post. reflexivity. Qed.

Lemma Contains_middle (pre s post : string) : Contains s (pre +:+ s +:+ post).
Proof. exists pre, post. reflexivity. Qed.

Lemma Contains_app_l (n a b : string) : Contains n a -> Contains n (a +:+ b).
Proof.
  intros (pre & post & ->). exists pre, (post +:+ b).
  now rewrite !append_assoc.
Qed.

Lemma Contains_app_r (n a b : string) : Contains n b -> Contains n (a +:+ b).
Proof.
  intros (pre & post & ->). exists (a +:+ pre), post.
  now rewrite !append_assoc.
Qed.

Lemma startswith_append (p s : string) : startswith p (p +:+ s) = true.
Proof.
  induction p as [|a p IH]; [reflexivity |].
  rewrite append_cons. simpl. now rewrite Ascii.eqb_refl.
Qed.

Lemma startswith_inv (p s : string) :
  startswith p s = true -> exists post, s = p +:+ post.
Proof.
  revert s. induction p as [|a p IH]; intros s H.
  - now exists s.
  - destruct s as [|b s]; [discriminate |]. simpl in H.
    destruct (Ascii.eqb a b) eqn:E; [| discriminate].
    apply Ascii.eqb_eq in E as ->.
    destruct (IH _ H) as [post ->]. now exists post.
Qed.

(** [py_in] decides [Contains]. *)
Lemma py_in_Contains (needle hay : string) :
  py_in needle hay = true <-> Contains needle hay.
Proof.
  split.
  - induction hay as [|c hay IH]; simpl; intros H.
    + rewrite orb_false_r in H. apply startswith_inv in H as [post ->].
      apply Contains_prefix.
    + apply orb_true_iff in H as [H | H].
      * apply startswith_inv in H as [post ->]. apply Contains_prefix.
      * destruct (IH H) as (pre & post & ->). now exists (String c pre), post.
  - intros (pre & post & ->).
    induction pre as [|c pre IH].
    + rewrite append_nil.
      assert (startswith needle (needle +:+ post) = true) as E
        by apply startswith_append.
      destruct (needle +:+ post); simpl; rewrite E; reflexivity.
    + rewrite append_cons. simpl. rewrite IH. apply orb_true_r.
Qed.

Lemma not_py_in_Contains (needle hay : string) :
  py_in needle hay = false -> ~ Contains needle hay.
Proof. intros H C. apply py_in_Contains in C. congruence. Qed.

(** ** The template *)

Lemma product_bot_template_split :
  product_bot_template =
  prompt_head +:+ "{context}" +:+ prompt_middle +:+ "{question}" +:+ prompt_tail.
Proof. reflexivity. Qed.

Lemma parse_product_bot :
  parse_format product_bot_template "" None =
  Some [Lit prompt_head; Field "context"; Lit prompt_middle; Field "question";
        Lit prompt_tail].
Proof. vm_compute. reflexivity. Qed.

Lemma render_product_bot_eq (context question : string) :
  render_product_bot context question =
  Ret (prompt_head +:+ context +:+ prompt_middle +:+ question +:+ prompt_tail).
Proof.
  unfold render_product_bot, product_bot_prompt.
  rewrite parse_product_bot. cbn [format_pieces].
  rewrite lookup_insert_eq.
  rewrite lookup_insert_ne by discriminate. rewrite lookup_insert_eq.
  now rewrite append_empty_r.
Qed.

(** Rendering the fixed template with both arguments never raises. *)
Lemma render_product_bot_total (context question : string) (e : py_exception) :
  render_product_bot context question <> Raise e.
Proof. rewrite render_product_bot_eq. discriminate. Qed.

Lemma lookup_template_product_bot (B : Backend) :
  @lookup_template B "product_bot" = mret product_bot_template.
Proof. unfold lookup_template, PROMPT_TEMPLATES. now rewrite lookup_singleton_eq. Qed.

Lemma from_template_product_bot (B : Backend) :
  @from_template B product_bot_template = mret product_bot_prompt.
Proof.
  unfold from_template, product_bot_prompt. now rewrite parse_product_bot.
Qed.

Lemma prompt_invoke_product_bot (B : Backend) (docs : list Document) (query : string) :
  prompt_invoke B product_bot_prompt docs query =
  of_outcome (render_product_bot (py_str B (PyDocs docs)) query).
Proof.
  unfold prompt_invoke, render_product_bot.
  now rewrite !fmap_insert, fmap_empty.
Qed.

(** ** The effect monad *)

Section Monad.
Context {B : Backend}.

Lemma bind_ret {A A'} (a : A) (k : A -> M B A') (s : state B) :
  (mret a ≫= k) s = k a s.
Proof. reflexivity. Qed.

Lemma bind_raise {A A'} (e : py_exception) (k : A -> M B A') (s : state B) :
  (raise e ≫= k) s = (Raise e, s).
Proof. reflexivity. Qed.

Lemma bind_of_outcome_ret {A A'} (a : A) (k : A -> M B A') (s : state B) :
  (of_outcome (Ret a) ≫= k) s = k a s.
Proof. reflexivity. Qed.

Lemma bind_print {A'} (text : string) (k : unit -> M B A') w t :
  (print text ≫= k) (State w t) = k tt (State w (t ++ [EvPrint text])).
Proof. reflexivity. Qed.

Lemma bind_call_ret {A A'} ev (op : world B -> outcome A * world B)
    (k : A -> M B A') w t a w' :
  op w = (Ret a, w') ->
  (call ev op ≫= k) (State w t) = k a (State w' (t ++ [ev])).
Proof.
  intros H. unfold mbind, M_bind, call. cbn [st_world st_trace].
  now rewrite H.
Qed.

Lemma bind_call_raise {A A'} ev (op : world B -> outcome A * world B)
    (k : A -> M B A') w t e w' :
  op w = (Raise e, w') ->
  (call ev op ≫= k) (State w t) = (Raise e, State w' (t ++ [ev])).
Proof.
  intros H. unfold mbind, M_bind, call. cbn [st_world st_trace].
  now rewrite H.
Qed.

Lemma try_except_ret {A} (m : M B A) h s a s' :
  m s = (Ret a, s') -> try_except m h s = (Ret a, s').
Proof. intros H. unfold try_except. now rewrite H. Qed.

Lemma try_except_raise {A} (m : M B A) h s e s' :
  m s = (Raise e, s') -> try_except m h s = h e s'.
Proof. intros H. unfold try_except. now rewrite H. Qed.
End Monad.

(** ** The paths through [invoke_chain] *)

Ltac pipeline_step :=
  first
    [ rewrite bind_ret
    | rewrite bind_print
    | rewrite bind_of_outcome_ret
    | erewrite bind_call_ret by eassumption
    | erewrite bind_call_raise by eassumption
    | rewrite lookup_template_product_bot
    | rewrite from_template_product_bot
    | rewrite prompt_invoke_product_bot
    | rewrite render_product_bot_eq ].

Ltac pipeline :=
  unfold invoke_chain_try, chain_invoke, load_retriever, retriever_invoke,
    load_llm, llm_invoke;
  repeat (pipeline_step; cbn [length Nat.eqb]);
  rewrite <- ?app_assoc; cbn [app].

Section Paths.
Context (B : Backend) (query : string).
Implicit Types (w : world B) (t : list event) (e : py_exception).

Lemma try_load_retriever_raises w t e w1 :
  be_load_retriever B w = (Raise e, w1) ->
  invoke_chain_try B query (State w t) =
  (Raise e, State w1 (t ++ [EvLoadRetriever])).
Proof. intros. pipeline. reflexivity. Qed.

Lemma try_first_search_raises w t e r w1 w2 :
  be_load_retriever B w = (Ret r, w1) ->
  be_retriever_invoke B r query w1 = (Raise e, w2) ->
  invoke_chain_try B query (State w t) =
  (Raise e, State w2 (t ++ [EvLoadRetriever; EvSearch query])).
Proof. intros. pipeline. reflexivity. Qed.

Lemma try_no_documents w t r w1 w2 :
  be_load_retriever B w = (Ret r, w1) ->
  be_retriever_invoke B r query w1 = (Ret [], w2) ->
  invoke_chain_try B query (State w t) =
  (Ret NO_DOCUMENTS_MESSAGE,
   State w2 (t ++ [EvLoadRetriever; EvSearch query; EvPrint (found_line [] query)])).
Proof. intros. pipeline. reflexivity. Qed.

Lemma try_load_llm_raises w t e r w1 d docs w2 w3 :
  be_load_retriever B w = (Ret r, w1) ->
  be_retriever_invoke B r query w1 = (Ret (d :: docs), w2) ->
  be_load_llm B w2 = (Raise e, w3) ->
  invoke_chain_try B query (State w t) =
  (Raise e,
   State w3 (t ++ [EvLoadRetriever; EvSearch query;
                   EvPrint (found_line (d :: docs) query);
                   EvPrint (sample_line d); EvLoadLlm])).
Proof. intros. pipeline. reflexivity. Qed.

Lemma try_chain_search_raises w t e r w1 d docs w2 l w3 w4 :
  be_load_retriever B w = (Ret r, w1) ->
  be_retriever_invoke B r query w1 = (Ret (d :: docs), w2) ->
  be_load_llm B w2 = (Ret l, w3) ->
  be_retriever_invoke B r query w3 = (Raise e, w4) ->
  invoke_chain_try B query (State w t) =
  (Raise e,
   State w4 (t ++ [EvLoadRetriever; EvSearch query;
                   EvPrint (found_line (d :: docs) query);
                   EvPrint (sample_line d); EvLoadLlm; EvSearch query])).
Proof. intros. pipeline. reflexivity. Qed.

Lemma try_generation_raises w t e r w1 d docs w2 l w3 docs' w4 w5 :
  be_load_retriever B w = (Ret r, w1) ->
  be_retriever_invoke B r query w1 = (Ret (d :: docs), w2) ->
  be_load_llm B w2 = (Ret l, w3) ->
  be_retriever_invoke B r query w3 = (Ret docs', w4) ->
  be_llm_invoke B l (chain_prompt B docs' query) w4 = (Raise e, w5) ->
  invoke_chain_try B query (State w t) =
  (Raise e,
   State w5 (t ++ [EvLoadRetriever; EvSearch query;
                   EvPrint (found_line (d :: docs) query);
                   EvPrint (sample_line d); EvLoadLlm; EvSearch query;
                   EvGenerate (chain_prompt B docs' query)])).
Proof. intros. pipeline. reflexivity. Qed.

Lemma try_success w t r w1 d docs w2 l w3 docs' w4 message w5 :
  be_load_retriever B w = (Ret r, w1) ->
  be_retriever_invoke B r query w1 = (Ret (d :: docs), w2) ->
  be_load_llm B w2 = (Ret l, w3) ->
  be_retriever_invoke B r query w3 = (Ret docs', w4) ->
  be_llm_invoke B l (chain_prompt B docs' query) w4 = (Ret message, w5) ->
  invoke_chain_try B query (State w t) =
  (Ret (content message),
   State w5 (t ++ [EvLoadRetriever; EvSearch query;
                   EvPrint (found_line (d :: docs) query);
                   EvPrint (sample_line d); EvLoadLlm; EvSearch query;
                   EvGenerate (chain_prompt B docs' query)])).
Proof. intros. pipeline. reflexivity. Qed.

(** A step that raises makes the [try] block raise. *)
Lemma step_raises_try w t e :
  step_raises B query w e ->
  exists s', invoke_chain_try B query (State w t) = (Raise e, s').
Proof.
  intros [w1 H1 | r w1 w2 H1 H2 | r w1 docs w2 w3 H1 H2 Hd H3
         | r w1 docs w2 l w3 w4 H1 H2 Hd H3 H4
         | r w1 docs w2 l w3 docs' w4 prompt w5 H1 H2 Hd H3 H4 Hp H5
         | r w1 docs w2 l w3 docs' w4 H1 H2 Hd H3 H4 Hp].
  - eexists. eapply try_load_retriever_raises; eassumption.
  - eexists. eapply try_first_search_raises; eassumption.
  - destruct docs as [|d docs]; [congruence |].
    eexists. eapply try_load_llm_raises; eassumption.
  - destruct docs as [|d docs]; [congruence |].
    eexists. eapply try_chain_search_raises; eassumption.
  - destruct docs as [|d docs]; [congruence |].
    rewrite render_product_bot_eq in Hp. injection Hp as <-.
    eexists. eapply try_generation_raises; eassumption.
  - now apply render_product_bot_total in Hp.
Qed.

(** Conversely, the [try] block raises only what a step raised. *)
Lemma try_raises_step w t e s' :
  invoke_chain_try B query (State w t) = (Raise e, s') ->
  step_raises B query w e.
Proof.
  destruct (be_load_retriever B w) as [[r | e1] w1] eqn:H1.
  2: { rewrite (try_load_retriever_raises _ _ _ _ H1). intros [= <- _].
       eapply raises_load_retriever; eassumption. }
  destruct (be_retriever_invoke B r query w1) as [[docs | e2] w2] eqn:H2.
  2: { rewrite (try_first_search_raises _ _ _ _ _ _ H1 H2). intros [= <- _].
       eapply raises_first_search; eassumption. }
  destruct docs as [|d docs].
  { rewrite (try_no_documents _ _ _ _ _ H1 H2). discriminate. }
  destruct (be_load_llm B w2) as [[l | e3] w3] eqn:H3.
  2: { rewrite (try_load_llm_raises _ _ _ _ _ _ _ _ _ H1 H2 H3). intros [= <- _].
       eapply raises_load_llm; eauto; discriminate. }
  destruct (be_retriever_invoke B r query w3) as [[docs' | e4] w4] eqn:H4.
  2: { rewrite (try_chain_search_raises _ _ _ _ _ _ _ _ _ _ _ H1 H2 H3 H4).
       intros [= <- _]. eapply raises_chain_search; eauto; discriminate. }
  destruct (be_llm_invoke B l (chain_prompt B docs' query) w4)
    as [[message | e5] w5] eqn:H5.
  { rewrite (try_success _ _ _ _ _ _ _ _ _ _ _ _ _ H1 H2 H3 H4 H5). discriminate. }
  rewrite (try_generation_raises _ _ _ _ _ _ _ _ _ _ _ _ _ H1 H2 H3 H4 H5).
  intros [= <- _].
  eapply raises_generation; eauto using render_product_bot_eq; discriminate.
Qed.

(** The handler turns what the [try] block raised into the error text. *)
Lemma invoke_chain_handles w t e s' :
  invoke_chain_try B query (State w t) = (Raise e, s') ->
  invoke_chain B query (State w t) =
  (Ret (error_message e),
   State (st_world s') (st_trace s' ++ [EvPrint (error_line e)])).
Proof.
  intros H. unfold invoke_chain. rewrite (try_except_raise _ _ _ _ _ H).
  destruct s' as [w' t']. now rewrite bind_print.
Qed.

Lemma invoke_chain_passes w t text s' :
  invoke_chain_try B query (State w t) = (Ret text, s') ->
  invoke_chain B query (State w t) = (Ret text, s').
Proof. intros H. unfold invoke_chain. now apply try_except_ret. Qed.

(** [invoke_chain] always returns a text. *)
Lemma invoke_chain_returns (s : state B) :
  exists text s', invoke_chain B query s = (Ret text, s').
Proof.
  destruct s as [w t].
  destruct (invoke_chain_try B query (State w t)) as [[text | e] s'] eqn:H.
  - eauto using invoke_chain_passes.
  - eauto using invoke_chain_handles.
Qed.

Lemma error_message_prefix e :
  Contains "technical difficulties" (error_message e).
Proof.
  unfold error_message.
  change "I'm experiencing technical difficulties. Error: "
    with ("I'm experiencing " +:+ "technical difficulties" +:+ ". Error: ").
  rewrite !append_assoc. apply Contains_middle.
Qed.

Lemma error_message_description e : Contains (exc_str e) (error_message e).
Proof. apply Contains_suffix. Qed.
End Paths.


(* ===================================================================== *)
(** ** The query pipeline: claims *)
(* ===================================================================== *)

(** C1.  For every question, if the similarity search returns zero
    documents, [invoke_chain] returns exactly the fixed no-results message
    and never invokes the generation model: the run consists of obtaining
    the retriever, one search and one diagnostic line, so no prompt is sent
    and the model is not even loaded. *)
Theorem invoke_chain_no_documents (B : Backend) (query : string) (w : world B)
    (r : retriever_handle B) (w1 w2 : world B) :
  be_load_retriever B w = (Ret r, w1) ->
  be_retriever_invoke B r query w1 = (Ret [], w2) ->
  run (invoke_chain B query) w =
    (Ret NO_DOCUMENTS_MESSAGE,
     State w2 [EvLoadRetriever; EvSearch query; EvPrint (found_line [] query)]) /\
  generations (st_trace (snd (run (invoke_chain B query) w))) = [] /\
  EvLoadLlm ∉ st_trace (snd (run (invoke_chain B query) w)).
Proof.
  intros H1 H2.
  assert (run (invoke_chain B query) w =
          (Ret NO_DOCUMENTS_MESSAGE,
           State w2 [EvLoadRetriever; EvSearch query; EvPrint (found_line [] query)]))
    as E.
  { unfold run. apply invoke_chain_passes.
    now rewrite (try_no_documents B query w [] r w1 w2 H1 H2). }
  rewrite E. split; [reflexivity |]. split; [reflexivity |].
  cbn [snd st_trace]. rewrite !elem_of_cons, elem_of_nil.
  intros [? | [? | [? | []]]]; discriminate.
Qed.

Lemma invoke_chain_no_documents_witness :
  be_load_retriever (scripted script_no_documents) 0%nat = (Ret tt, 0%nat) /\
  be_retriever_invoke (scripted script_no_documents) tt "test query" 0%nat
    = (Ret [], 1%nat) /\
  fst (run (invoke_chain (scripted script_no_documents) "test query") 0%nat)
    = Ret NO_DOCUMENTS_MESSAGE /\
  generations
    (st_trace (snd (run (invoke_chain (scripted script_no_documents) "test query") 0%nat)))
    = [].
Proof.
  split; [reflexivity |]. split; [reflexivity |].
  destruct (invoke_chain_no_documents (scripted script_no_documents)
              "test query" 0%nat tt 0%nat 1%nat eq_refl eq_refl)
    as (E & G & _).
  split; [now rewrite E | exact G].
Defined.

(** C2.  For every question and every exception [e] raised by a step of the
    pipeline (creating the retriever, either similarity search, loading the
    model, rendering the prompt, the generation call), [invoke_chain] does
    not propagate it: it returns the text made of the fixed prefix and
    [str(e)], which contains both "technical difficulties" and [str(e)].
    Whatever the collaborators do, [invoke_chain] returns a text. *)
Theorem invoke_chain_exception (B : Backend) (query : string) (w : world B) :
  (exists text s', run (invoke_chain B query) w = (Ret text, s')) /\
  forall e : py_exception,
    step_raises B query w e ->
    fst (run (invoke_chain B query) w) = Ret (error_message e) /\
    Contains "technical difficulties" (error_message e) /\
    Contains (exc_str e) (error_message e).
Proof.
  split; [apply invoke_chain_returns |].
  intros e Hstep.
  destruct (step_raises_try B query w [] e Hstep) as [s' Htry].
  unfold run. rewrite (invoke_chain_handles B query w [] e s' Htry).
  split; [reflexivity |].
  split; [apply error_message_prefix | apply error_message_description].
Qed.

Lemma invoke_chain_exception_witness :
  step_raises (scripted script_exception) "test query" 0%nat
    (PyExc "Exception" "Test error") /\
  fst (run (invoke_chain (scripted script_exception) "test query") 0%nat)
    = Ret "I'm experiencing technical difficulties. Error: Test error" /\
  Contains "technical difficulties"
    "I'm experiencing technical difficulties. Error: Test error" /\
  Contains "Test error" "I'm experiencing technical difficulties. Error: Test error".
Proof.
  assert (step_raises (scripted script_exception) "test query" 0%nat
            (PyExc "Exception" "Test error")) as Hstep
    by (apply raises_load_retriever with (w1 := 0%nat); reflexivity).
  split; [exact Hstep |].
  exact (proj2 (invoke_chain_exception (scripted script_exception) "test query" 0%nat)
           (PyExc "Exception" "Test error") Hstep).
Defined.

(** On the path where a document is found and every call returns, the whole
    run of [invoke_chain]. *)
Lemma invoke_chain_success (B : Backend) (query : string) (w : world B)
    r w1 d docs w2 l w3 docs' w4 message w5 :
  be_load_retriever B w = (Ret r, w1) ->
  be_retriever_invoke B r query w1 = (Ret (d :: docs), w2) ->
  be_load_llm B w2 = (Ret l, w3) ->
  be_retriever_invoke B r query w3 = (Ret docs', w4) ->
  be_llm_invoke B l (chain_prompt B docs' query) w4 = (Ret message, w5) ->
  run (invoke_chain B query) w =
    (Ret (content message),
     State w5 [EvLoadRetriever; EvSearch query;
               EvPrint (found_line (d :: docs) query); EvPrint (sample_line d);
               EvLoadLlm; EvSearch query;
               EvGenerate (chain_prompt B docs' query)]).
Proof.
  intros H1 H2 H3 H4 H5. unfold run. apply invoke_chain_passes.
  now rewrite (try_success B query w [] r w1 d docs w2 l w3 docs' w4 message w5
                 H1 H2 H3 H4 H5).
Qed.

(** C3, as the code has it.  On the path where the first similarity search
    finds at least one document and every call returns, [invoke_chain]
    makes exactly three outbound provider calls, in this order: the
    similarity search that probes the retriever, the similarity search the
    chain issues for the same question, and one generation call.  Its other
    effects are obtaining the retriever and the model handles and two
    diagnostic lines. *)
Theorem invoke_chain_provider_calls (B : Backend) (query : string) (w : world B)
    r w1 d docs w2 l w3 docs' w4 message w5 :
  be_load_retriever B w = (Ret r, w1) ->
  be_retriever_invoke B r query w1 = (Ret (d :: docs), w2) ->
  be_load_llm B w2 = (Ret l, w3) ->
  be_retriever_invoke B r query w3 = (Ret docs', w4) ->
  be_llm_invoke B l (chain_prompt B docs' query) w4 = (Ret message, w5) ->
  provider_calls (st_trace (snd (run (invoke_chain B query) w))) =
    [EvSearch query; EvSearch query; EvGenerate (chain_prompt B docs' query)] /\
  st_trace (snd (run (invoke_chain B query) w)) =
    [EvLoadRetriever; EvSearch query;
     EvPrint (found_line (d :: docs) query); EvPrint (sample_line d);
     EvLoadLlm; EvSearch query; EvGenerate (chain_prompt B docs' query)].
Proof.
  intros H1 H2 H3 H4 H5.
  rewrite (invoke_chain_success B query w r w1 d docs w2 l w3 docs' w4 message w5
             H1 H2 H3 H4 H5).
  split; reflexivity.
Qed.

Lemma invoke_chain_provider_calls_witness :
  be_retriever_invoke (scripted script_success) tt "test query" 0%nat
    = (Ret [doc "Test product content"], 1%nat) /\
  provider_calls
    (st_trace (snd (run (invoke_chain (scripted script_success) "test query") 0%nat)))
  = [EvSearch "test query"; EvSearch "test query";
     EvGenerate (chain_prompt (scripted script_success)
                   [doc "Test product content"] "test query")].
Proof.
  split; [reflexivity |].
  exact (proj1 (invoke_chain_provider_calls (scripted script_success) "test query"
                  0%nat tt 0%nat (doc "Test product content") [] 1%nat tt 1%nat
                  [doc "Test product content"] 2%nat {| content := "AI response" |}
                  2%nat eq_refl eq_refl eq_refl eq_refl eq_refl)).
Defined.

(** C3, as the specification words it, fails: with a retriever that finds
    one document and a model that answers, the run makes two similarity
    searches and one generation call, so its provider calls are not "one
    similarity search and one generation call". *)
Lemma two_searches_counterexample :
  be_retriever_invoke (scripted script_success) tt "test query" 0%nat
    = (Ret [doc "Test product content"], 1%nat) /\
  fst (run (invoke_chain (scripted script_success) "test query") 0%nat)
    = Ret "AI response" /\
  searches
    (st_trace (snd (run (invoke_chain (scripted script_success) "test query") 0%nat)))
    = ["test query"; "test query"] /\
  ~ one_search_one_generation
      (st_trace (snd (run (invoke_chain (scripted script_success) "test query") 0%nat))).
Proof.
  split; [reflexivity |].
  rewrite (invoke_chain_success (scripted script_success) "test query"
             0%nat tt 0%nat (doc "Test product content") [] 1%nat tt 1%nat
             [doc "Test product content"] 2%nat {| content := "AI response" |}
             2%nat eq_refl eq_refl eq_refl eq_refl eq_refl).
  split; [reflexivity |]. split; [reflexivity |].
  intros (q & p & H). cbn in H. discriminate H.
Qed.

(** C4, as the code has it.  On the path where the first similarity search
    finds at least one document and every call returns, [invoke_chain]
    returns the text of the model's reply verbatim, and the one prompt sent
    to the model is the [product_bot] template with [{context}] replaced by
    [str] of the list of documents the chain's own similarity search
    returned (their [repr]s between brackets, separated by a comma and a
    space) and [{question}] replaced by the question; the prompt contains
    that text and the question. *)
Theorem invoke_chain_prompt (B : Backend) (query : string) (w : world B)
    r w1 d docs w2 l w3 docs' w4 message w5 :
  be_load_retriever B w = (Ret r, w1) ->
  be_retriever_invoke B r query w1 = (Ret (d :: docs), w2) ->
  be_load_llm B w2 = (Ret l, w3) ->
  be_retriever_invoke B r query w3 = (Ret docs', w4) ->
  be_llm_invoke B l (chain_prompt B docs' query) w4 = (Ret message, w5) ->
  fst (run (invoke_chain B query) w) = Ret (content message) /\
  generations (st_trace (snd (run (invoke_chain B query) w)))
    = [chain_prompt B docs' query] /\
  render_product_bot ("[" +:+ join ", " (map (repr_Document B) docs') +:+ "]") query
    = Ret (chain_prompt B docs' query) /\
  Contains ("[" +:+ join ", " (map (repr_Document B) docs') +:+ "]")
    (chain_prompt B docs' query) /\
  Contains query (chain_prompt B docs' query).
Proof.
  intros H1 H2 H3 H4 H5.
  rewrite (invoke_chain_success B query w r w1 d docs w2 l w3 docs' w4 message w5
             H1 H2 H3 H4 H5).
  split; [reflexivity |]. split; [reflexivity |].
  split; [apply render_product_bot_eq |].
  unfold chain_prompt. cbn [py_str]. split.
  - apply Contains_middle.
  - do 3 apply Contains_app_r. apply Contains_prefix.
Qed.

Lemma invoke_chain_prompt_witness :
  be_retriever_invoke (scripted script_two_documents) tt "test query" 0%nat
    = (Ret [doc "Wireless Headphones"; doc "Gaming Laptop"], 1%nat) /\
  fst (run (invoke_chain (scripted script_two_documents) "test query") 0%nat)
    = Ret "AI response" /\
  generations
    (st_trace (snd (run (invoke_chain (scripted script_two_documents) "test query") 0%nat)))
    = [chain_prompt (scripted script_two_documents)
         [doc "Wireless Headphones"; doc "Gaming Laptop"] "test query"].
Proof.
  split; [reflexivity |].
  destruct (invoke_chain_prompt (scripted script_two_documents) "test query"
              0%nat tt 0%nat (doc "Wireless Headphones") [doc "Gaming Laptop"]
              1%nat tt 1%nat [doc "Wireless Headphones"; doc "Gaming Laptop"]
              2%nat {| content := "AI response" |} 2%nat
              eq_refl eq_refl eq_refl eq_refl eq_refl) as (E & G & _).
  split; [exact E | exact G].
Defined.

(** C4, as the specification words it, fails: with a retriever that finds
    two documents, the prompt sent to the model is not the template filled
    with the concatenated text of the documents, and it does not even
    contain that text. *)
Lemma prompt_context_counterexample :
  be_retriever_invoke (scripted script_two_documents) tt "test query" 0%nat
    = (Ret [doc "Wireless Headphones"; doc "Gaming Laptop"], 1%nat) /\
  generations
    (st_trace (snd (run (invoke_chain (scripted script_two_documents) "test query") 0%nat)))
    = [chain_prompt (scripted script_two_documents)
         [doc "Wireless Headphones"; doc "Gaming Laptop"] "test query"] /\
  spec_prompt [doc "Wireless Headphones"; doc "Gaming Laptop"] "test query"
    <> Ret (chain_prompt (scripted script_two_documents)
              [doc "Wireless Headphones"; doc "Gaming Laptop"] "test query") /\
  ~ Contains
      (concatenated_context [doc "Wireless Headphones"; doc "Gaming Laptop"])
      (chain_prompt (scripted script_two_documents)
         [doc "Wireless Headphones"; doc "Gaming Laptop"] "test query").
Proof.
  split; [reflexivity |].
  split.
  { rewrite (invoke_chain_success (scripted script_two_documents) "test query"
               0%nat tt 0%nat (doc "Wireless Headphones") [doc "Gaming Laptop"]
               1%nat tt 1%nat [doc "Wireless Headphones"; doc "Gaming Laptop"]
               2%nat {| content := "AI response" |} 2%nat
               eq_refl eq_refl eq_refl eq_refl eq_refl).
    reflexivity. }
  split.
  - unfold spec_prompt. rewrite render_product_bot_eq. intros H.
    apply (f_equal (fun o => match o with
                             | Ret s => py_in "[Document" s
                             | Raise _ => false
                             end)) in H.
    vm_compute in H. discriminate H.
  - apply not_py_in_Contains. vm_compute. reflexivity.
Qed.

(* ===================================================================== *)
(** ** The HTTP front end: claims *)
(* ===================================================================== *)

(** [chat] returns its JSON object; it never raises. *)
Lemma chat_returns (B : Backend) (msg : string) (s : state B) :
  exists text s',
    invoke_chain B msg s = (Ret text, s') /\
    chat B msg s =
      (Ret (JObject [("response", text)]),
       State (st_world s') (st_trace s' ++ [EvPrint ("Response: " +:+ text)])).
Proof.
  destruct (invoke_chain_returns B msg s) as (text & s' & H).
  exists text, s'. split; [exact H |].
  unfold chat, mbind, M_bind. rewrite H. destruct s' as [w' t']. reflexivity.
Qed.

(** A request [POST /get] with the one form field [msg] runs [chat] on the
    value of the field and is answered with what [chat] returns. *)
Lemma post_get_runs_chat (B : Backend) (msg : string) (s : state B)
    (text : string) (s1 : state B) :
  invoke_chain B msg s = (Ret text, s1) ->
  app B (POST "/get" [("msg", msg)]) s =
    (Ret (Response 200 (JsonBody (JObject [("response", text)]))),
     State (st_world s1) (st_trace s1 ++ [EvPrint ("Response: " +:+ text)])).
Proof.
  intros H. unfold app. rewrite String.eqb_refl.
  cbn [form_get]. rewrite String.eqb_refl.
  unfold respond, try_except, chat, mbind, M_bind. rewrite H.
  destruct s1 as [w1 t1]. reflexivity.
Qed.

(** X20.  A request that reaches [chat] is answered with status 200 and the
    pipeline's answer, whatever the collaborators do: a failure of the
    pipeline is never a 5xx answer. *)
Lemma post_get_non_empty (B : Backend) (c : ascii) (msg : string) (s : state B) :
  exists text s1 s2,
    invoke_chain B (String c msg) s = (Ret text, s1) /\
    app B (POST "/get" [("msg", String c msg)]) s =
      (Ret (Response 200 (JsonBody (JObject [("response", text)]))), s2).
Proof.
  destruct (invoke_chain_returns B (String c msg) s) as (text & s1 & H).
  exists text, s1. eexists. split; [exact H |].
  exact (post_get_runs_chat B (String c msg) s text s1 H).
Qed.



(** C9.  [GET /] is answered with status 200 and exactly the fixed welcome
    object, for every backend and every state of it; the state is left as
    it was and no call is made on any collaborator, so the answers of two
    backends in any two states are the same. *)
Theorem get_root_welcome (B : Backend) (s : state B) :
  app B (GET "/") s =
    (Ret (Response 200
            (JsonBody
               (JObject
                  [("message",
                    "Welcome to the Product Information Bot API. Use the /get endpoint to chat with the bot.")]))),
     s) /\
  st_trace (snd (app B (GET "/") s)) = st_trace s /\
  forall (B' : Backend) (s' : state B'),
    fst (app B' (GET "/") s') = fst (app B (GET "/") s).
Proof.
  assert (forall (B0 : Backend) (s0 : state B0),
             app B0 (GET "/") s0 =
             (Ret (Response 200 (JsonBody (JObject [("message", WELCOME_MESSAGE)]))), s0))
    as Hroot.
  { intros B0 s0. unfold app. rewrite String.eqb_refl.
    unfold respond, main. apply try_except_ret. reflexivity. }
  split; [apply Hroot |]. split.
  - now rewrite Hroot.
  - intros B' s'. now rewrite !Hroot.
Qed.

(* ===================================================================== *)
(** ** The retriever's top-k: claim *)
(* ===================================================================== *)

(** C6.  For a configuration that names the collection: when it has no
    retriever section, the handle [load_retriever] creates asks for
    [k = 3]; when its retriever section gives [top_k], the handle asks for
    exactly that value. *)
Theorem load_retriever_top_k (cfg : config) (name : cfg_value) :
  cfg !! "astra_db" ≫= (.!! "collection_name") = Some name ->
  (cfg !! "retriever" = None ->
   exists handle self',
     Retriever_load_retriever (Retriever_init cfg) = (Ret handle, self') /\
     r_retriever self' = Some handle /\
     rs_search_kwargs handle = {[ "k" := CfgInt 3 ]}) /\
  (forall section top_k,
     cfg !! "retriever" = Some section ->
     section !! "top_k" = Some top_k ->
     exists handle self',
       Retriever_load_retriever (Retriever_init cfg) = (Ret handle, self') /\
       r_retriever self' = Some handle /\
       rs_search_kwargs handle = {[ "k" := top_k ]}).
Proof.
  intros Hname. split.
  - intros Hnone. unfold Retriever_load_retriever, Retriever_init.
    cbn [r_retriever r_config]. rewrite Hname.
    do 2 eexists. split; [reflexivity |]. split; [reflexivity |].
    cbn [rs_search_kwargs]. unfold configured_top_k. now rewrite Hnone.
  - intros section top_k Hsec Htop. unfold Retriever_load_retriever, Retriever_init.
    cbn [r_retriever r_config]. rewrite Hname.
    do 2 eexists. split; [reflexivity |]. split; [reflexivity |].
    cbn [rs_search_kwargs]. unfold configured_top_k. rewrite Hsec, Htop. reflexivity.
Qed.

Lemma load_retriever_top_k_witness :
  (config_without_retriever !! "astra_db" ≫= (.!! "collection_name")
     = Some (CfgStr "test_collection") /\
   config_without_retriever !! "retriever" = None /\
   exists handle self',
     Retriever_load_retriever (Retriever_init config_without_retriever)
       = (Ret handle, self') /\
     r_retriever self' = Some handle /\
     rs_search_kwargs handle = {[ "k" := CfgInt 3 ]}) /\
  (config_top_k_5 !! "retriever" = Some {[ "top_k" := CfgInt 5 ]} /\
   exists handle self',
     Retriever_load_retriever (Retriever_init config_top_k_5) = (Ret handle, self') /\
     r_retriever self' = Some handle /\
     rs_search_kwargs handle = {[ "k" := CfgInt 5 ]}).
Proof.
  split.
  - split; [reflexivity |]. split; [reflexivity |].
    exact (proj1 (load_retriever_top_k config_without_retriever
                    (CfgStr "test_collection") eq_refl) eq_refl).
  - split; [reflexivity |].
    exact (proj2 (load_retriever_top_k config_top_k_5
                    (CfgStr "test_collection") eq_refl)
             {[ "top_k" := CfgInt 5 ]} (CfgInt 5) eq_refl eq_refl).
Defined.

(* ===================================================================== *)
(** ** Ingestion: claim *)
(* ===================================================================== *)

Lemma columns_error_names_required (c : string) :
  In c REQUIRED_COLUMNS -> Contains c (exc_str columns_error).
Proof.
  intros Hc. apply py_in_Contains.
  cbn in Hc. destruct Hc as [<- | [<- | [<- | [<- | [<- | []]]]]];
    vm_compute; reflexivity.
Qed.

(** C7.  For every table that lacks one of the required columns,
    constructing the ingestion job raises a [ValueError] whose message
    names every required column; nothing has been embedded or written to
    the vector store, and [populate_database] reports the failure without
    any such call. *)
Theorem ingestion_rejects_missing_column (t : table) (c : string) :
  In c REQUIRED_COLUMNS ->
  has_column t c = false ->
  DataIngestion_init (Some t) = (Raise columns_error, []) /\
  exc_class columns_error = "ValueError" /\
  exc_str columns_error =
    "CSV must contain columns: {'product_id', 'product_title', 'rating', 'summary', 'review'}" /\
  (forall c', In c' REQUIRED_COLUMNS -> Contains c' (exc_str columns_error)) /\
  forall render_row,
    populate_database render_row (Some t) =
      (false,
       ["🚀 Starting data ingestion...";
        "❌ Error during data ingestion: " +:+ exc_str columns_error],
       []).
Proof.
  intros Hc Hmiss.
  assert (forallb (has_column t) REQUIRED_COLUMNS = false) as Hall.
  { apply not_true_is_false. intros Hall.
    rewrite forallb_forall in Hall. specialize (Hall c Hc). congruence. }
  assert (DataIngestion_init (Some t) = (Raise columns_error, [])) as Hinit.
  { unfold DataIngestion_init. now rewrite Hall. }
  split; [exact Hinit |]. split; [reflexivity |]. split; [reflexivity |].
  split; [apply columns_error_names_required |].
  intros render_row. unfold populate_database. now rewrite Hinit.
Qed.

Lemma ingestion_rejects_missing_column_witness :
  In "summary" REQUIRED_COLUMNS /\
  has_column invalid_table "summary" = false /\
  DataIngestion_init (Some invalid_table) = (Raise columns_error, []).
Proof.
  assert (In "summary" REQUIRED_COLUMNS) as Hc by (cbn; tauto).
  split; [exact Hc |]. split; [reflexivity |].
  exact (proj1 (ingestion_rejects_missing_column invalid_table "summary" Hc eq_refl)).
Defined.

(* ===================================================================== *)
(** ** The environment check: claims *)
(* ===================================================================== *)

Lemma fold_missing (environ : environment) (vars acc : list string) :
  fold_left
    (fun missing_vars var =>
       if truthy (getenv environ var) then missing_vars else missing_vars ++ [var])
    vars acc
  = acc ++ List.filter (fun var => negb (truthy (getenv environ var))) vars.
Proof.
  revert acc. induction vars as [|v vars IH]; intros acc; cbn [fold_left List.filter].
  - now rewrite app_nil_r.
  - rewrite IH. destruct (truthy (getenv environ v)); cbn [negb].
    + reflexivity.
    + now rewrite <- app_assoc.
Qed.

(** The loop keeps, in order, the variables whose value is false. *)
Lemma collect_missing_filter (environ : environment) (vars : list string) :
  collect_missing environ vars
  = List.filter (fun var => negb (truthy (getenv environ var))) vars.
Proof. unfold collect_missing. now rewrite fold_missing. Qed.

Lemma truthy_false (v : option string) :
  truthy v = false <-> v = None \/ v = Some "".
Proof.
  destruct v as [[|c s]|]; cbn; split; intros H; auto; try discriminate.
  destruct H as [H | H]; discriminate.
Qed.

Lemma In_collect_missing (environ : environment) (vars : list string) (var : string) :
  In var (collect_missing environ vars) <->
  In var vars /\ (getenv environ var = None \/ getenv environ var = Some "").
Proof.
  rewrite collect_missing_filter, filter_In, negb_true_iff, truthy_false.
  reflexivity.
Qed.

(** The check reads only the truth values of the variables. *)
Lemma collect_missing_ext (env1 env2 : environment) (vars : list string) :
  (forall var, In var vars -> truthy (getenv env1 var) = truthy (getenv env2 var)) ->
  collect_missing env1 vars = collect_missing env2 vars.
Proof.
  intros H. rewrite !collect_missing_filter.
  apply filter_ext_in. intros var Hvar. now rewrite (H var Hvar).
Qed.

Lemma check_environment_missing (dotenv environ : environment) v vs :
  collect_missing (load_dotenv dotenv environ) required_vars = v :: vs ->
  check_environment dotenv environ =
    (false,
     ["❌ Missing environment variables:"]
       ++ map missing_line (v :: vs)
       ++ ["
📝 Please create a .env file with your credentials.";
           "   You can use .env.template as a reference."]).
Proof. intros H. unfold check_environment. now rewrite H. Qed.

Lemma missing_line_inj (a b : string) : missing_line a = missing_line b -> a = b.
Proof. unfold missing_line. intros H. now injection H. Qed.

(** The lines of the listing are exactly those of the missing variables:
    the heading and the two closing lines are not of that form. *)
Lemma In_missing_line (var : string) (missing : list string) :
  In (missing_line var)
     (["❌ Missing environment variables:"]
        ++ map missing_line missing
        ++ ["
📝 Please create a .env file with your credentials.";
            "   You can use .env.template as a reference."])
  <-> In var missing.
Proof.
  cbn [app]. split.
  - intros [H | H]; [unfold missing_line in H; discriminate H |].
    apply (in_app_or (map missing_line missing)) in H.
    destruct H as [H | [H | [H | []]]];
      try (unfold missing_line in H; discriminate H).
    apply in_map_iff in H. destruct H as (x & Hx & Hin).
    apply missing_line_inj in Hx. now subst.
  - intros H. right. apply (in_or_app (map missing_line missing)).
    left. now apply in_map.
Qed.

Lemma getenv_load_dotenv_set (dotenv environ : environment) (var value : string) :
  environ !! var = Some value ->
  getenv (load_dotenv dotenv environ) var = Some value.
Proof. intros H. unfold getenv, load_dotenv. now apply lookup_union_Some_l. Qed.

Lemma model_loader_check (cfg : config) (dotenv environ : environment) :
  ModelLoader_init cfg dotenv environ =
  if truthy (getenv (load_dotenv dotenv environ) "GOOGLE_API_KEY")
  then Ret {| ml_config := cfg |}
  else Raise (PyExc "EnvironmentError"
                "Missing environment variables: ['GOOGLE_API_KEY']").
Proof.
  unfold ModelLoader_init. rewrite collect_missing_filter.
  unfold ModelLoader_required_vars. cbn [List.filter].
  destruct (truthy (getenv (load_dotenv dotenv environ) "GOOGLE_API_KEY"));
    reflexivity.
Qed.

(** C8, as the code has it.  Whenever one of the four required variables is
    unset or empty once the [.env] file is loaded, [check_environment]
    returns [False] and prints, between the heading and the two closing
    lines, one line for each missing variable, in the order of the list of
    required variables, and for no other variable; given only
    [GOOGLE_API_KEY] set, the listing names the other three.  [ModelLoader]
    requires [GOOGLE_API_KEY] only: it raises [EnvironmentError] exactly
    when that variable is unset or empty, and its message names that
    variable and no other. *)
Theorem check_environment_enumerates_missing
    (cfg : config) (dotenv environ : environment) :
  ((exists var, In var required_vars /\
                truthy (getenv (load_dotenv dotenv environ) var) = false) ->
   fst (check_environment dotenv environ) = false /\
   snd (check_environment dotenv environ) =
     ["❌ Missing environment variables:"]
       ++ map missing_line
            (List.filter
               (fun var => negb (truthy (getenv (load_dotenv dotenv environ) var)))
               required_vars)
       ++ ["
📝 Please create a .env file with your credentials.";
           "   You can use .env.template as a reference."] /\
   forall var,
     In (missing_line var) (snd (check_environment dotenv environ)) <->
     In var required_vars /\
     (getenv (load_dotenv dotenv environ) var = None \/
      getenv (load_dotenv dotenv environ) var = Some "")) /\
  (forall key, key <> "" ->
     check_environment ∅ {[ "GOOGLE_API_KEY" := key ]} =
       (false,
        ["❌ Missing environment variables:";
         "   - ASTRA_DB_API_ENDPOINT";
         "   - ASTRA_DB_APPLICATION_TOKEN";
         "   - ASTRA_DB_KEYSPACE";
         "
📝 Please create a .env file with your credentials.";
         "   You can use .env.template as a reference."])) /\
  (truthy (getenv (load_dotenv dotenv environ) "GOOGLE_API_KEY") = false ->
   ModelLoader_init cfg dotenv environ =
     Raise (PyExc "EnvironmentError"
              "Missing environment variables: ['GOOGLE_API_KEY']")) /\
  (truthy (getenv (load_dotenv dotenv environ) "GOOGLE_API_KEY") = true ->
   ModelLoader_init cfg dotenv environ = Ret {| ml_config := cfg |}).
Proof.
  split; [| split; [| split]].
  - intros (var & Hreq & Hfalse).
    assert (In var (collect_missing (load_dotenv dotenv environ) required_vars)) as Hin.
    { apply In_collect_missing. split; [exact Hreq | now apply truthy_false]. }
    destruct (collect_missing (load_dotenv dotenv environ) required_vars)
      as [|v vs] eqn:Hmissing; [destruct Hin |].
    rewrite (check_environment_missing dotenv environ v vs Hmissing).
    cbn [fst snd]. split; [reflexivity |]. split.
    + now rewrite <- collect_missing_filter, Hmissing.
    + intros x. rewrite In_missing_line, <- Hmissing. apply In_collect_missing.
  - intros key Hkey. unfold check_environment, load_dotenv.
    rewrite (right_id_L ∅ (∪)). rewrite collect_missing_filter.
    unfold required_vars, getenv. cbn [List.filter].
    rewrite lookup_singleton_eq. rewrite !lookup_singleton_ne by discriminate.
    destruct key as [|c key]; [congruence |]. reflexivity.
  - intros H. now rewrite model_loader_check, H.
  - intros H. now rewrite model_loader_check, H.
Qed.

Lemma check_environment_enumerates_missing_witness :
  In "ASTRA_DB_KEYSPACE" required_vars /\
  truthy (getenv (load_dotenv ∅ env_only_google) "ASTRA_DB_KEYSPACE") = false /\
  fst (check_environment ∅ env_only_google) = false /\
  (In (missing_line "ASTRA_DB_KEYSPACE") (snd (check_environment ∅ env_only_google)) <->
   In "ASTRA_DB_KEYSPACE" required_vars /\
   (getenv (load_dotenv ∅ env_only_google) "ASTRA_DB_KEYSPACE" = None \/
    getenv (load_dotenv ∅ env_only_google) "ASTRA_DB_KEYSPACE" = Some "")) /\
  ModelLoader_init ∅ ∅ env_only_google = Ret {| ml_config := ∅ |} /\
  ModelLoader_init ∅ ∅ ∅ =
    Raise (PyExc "EnvironmentError" "Missing environment variables: ['GOOGLE_API_KEY']").
Proof.
  assert (In "ASTRA_DB_KEYSPACE" required_vars) as Hreq by (cbn; tauto).
  assert (truthy (getenv (load_dotenv ∅ env_only_google) "ASTRA_DB_KEYSPACE") = false)
    as Hfalse by (vm_compute; reflexivity).
  split; [exact Hreq |]. split; [exact Hfalse |].
  destruct (check_environment_enumerates_missing ∅ ∅ env_only_google)
    as (Hcheck & _ & _ & Hloads).
  destruct (Hcheck (ex_intro _ "ASTRA_DB_KEYSPACE" (conj Hreq Hfalse)))
    as (Hflag & _ & Hlisted).
  split; [exact Hflag |]. split; [exact (Hlisted "ASTRA_DB_KEYSPACE") |].
  split.
  - apply Hloads. vm_compute. reflexivity.
  - destruct (check_environment_enumerates_missing ∅ ∅ ∅) as (_ & _ & Hraises & _).
    apply Hraises. vm_compute. reflexivity.
Defined.

(** C8, as the specification words it, fails for [ModelLoader]: with no
    variable set, all four required variables are missing but the error of
    [ModelLoader] names [GOOGLE_API_KEY] alone; and with only
    [GOOGLE_API_KEY] set, [check_environment] fails while [ModelLoader] is
    constructed without an error. *)
Lemma model_loader_counterexample :
  collect_missing (load_dotenv ∅ ∅) required_vars = required_vars /\
  ModelLoader_init ∅ ∅ ∅ =
    Raise (PyExc "EnvironmentError" "Missing environment variables: ['GOOGLE_API_KEY']") /\
  ~ Contains "ASTRA_DB_KEYSPACE" "Missing environment variables: ['GOOGLE_API_KEY']" /\
  fst (check_environment ∅ env_only_google) = false /\
  ModelLoader_init ∅ ∅ env_only_google = Ret {| ml_config := ∅ |}.
Proof.
  split; [vm_compute; reflexivity |].
  split; [vm_compute; reflexivity |].
  split; [apply not_py_in_Contains; vm_compute; reflexivity |].
  split; vm_compute; reflexivity.
Qed.

(** C10.  For every environment in which a required variable is set to the
    empty string, [check_environment] returns [False] and lists that
    variable among the missing ones, whatever the [.env] file holds: the
    check reads the truth value of the variable, not its presence.  When
    the [.env] file does not define the variable, the flag and the printed
    lines are those of the environment with the variable unset. *)
Theorem check_environment_empty_value (dotenv environ : environment) (var : string) :
  In var required_vars ->
  environ !! var = Some "" ->
  fst (check_environment dotenv environ) = false /\
  In var (collect_missing (load_dotenv dotenv environ) required_vars) /\
  In (missing_line var) (snd (check_environment dotenv environ)) /\
  (dotenv !! var = None ->
   check_environment dotenv environ = check_environment dotenv (delete var environ)).
Proof.
  intros Hreq Hempty.
  pose proof (getenv_load_dotenv_set dotenv environ var "" Hempty) as Hget.
  assert (In var (collect_missing (load_dotenv dotenv environ) required_vars)) as Hin.
  { apply In_collect_missing. auto. }
  destruct (collect_missing (load_dotenv dotenv environ) required_vars)
    as [|v vs] eqn:Hmissing; [destruct Hin |].
  rewrite (check_environment_missing dotenv environ v vs Hmissing). cbn [fst snd].
  split; [reflexivity |]. split; [exact Hin |].
  split; [now apply In_missing_line |].
  intros Hdotenv. symmetry. apply check_environment_missing.
  rewrite <- Hmissing. apply collect_missing_ext. intros x _.
  unfold getenv, load_dotenv. rewrite !lookup_union.
  destruct (decide (x = var)) as [-> | Hne].
  - now rewrite lookup_delete_eq, Hempty, Hdotenv.
  - now rewrite lookup_delete_ne by congruence.
Qed.

Lemma check_environment_empty_value_witness :
  In "GOOGLE_API_KEY" required_vars /\
  env_empty_google !! "GOOGLE_API_KEY" = Some "" /\
  fst (check_environment ∅ env_empty_google) = false /\
  In (missing_line "GOOGLE_API_KEY") (snd (check_environment ∅ env_empty_google)).
Proof.
  assert (In "GOOGLE_API_KEY" required_vars) as Hreq by (cbn; tauto).
  split; [exact Hreq |]. split; [reflexivity |].
  destruct (check_environment_empty_value ∅ env_empty_google "GOOGLE_API_KEY"
              Hreq eq_refl) as (Hflag & _ & Hlisted & _).
  split; [exact Hflag | exact Hlisted].
Defined.

(* ===================================================================== *)
(** * Further properties of the code *)
(* ===================================================================== *)

(** ** The query pipeline *)

(** Every run of [invoke_chain] follows one of the seven paths. *)
Lemma invoke_chain_run_path (B : Backend) (query : string) (w : world B) :
  run_path B query w (run (invoke_chain B query) w).
Proof.
  unfold run.
  destruct (be_load_retriever B w) as [[r | e1] w1] eqn:H1.
  2: { rewrite (invoke_chain_handles B query w [] e1 _
                  (try_load_retriever_raises B query w [] e1 w1 H1)).
       now apply path_load_retriever_raises. }
  destruct (be_retriever_invoke B r query w1) as [[docs | e2] w2] eqn:H2.
  2: { rewrite (invoke_chain_handles B query w [] e2 _
                  (try_first_search_raises B query w [] e2 r w1 w2 H1 H2)).
       now apply path_probe_raises with r w1. }
  destruct docs as [|d docs].
  { rewrite (invoke_chain_passes B query w [] _ _
               (try_no_documents B query w [] r w1 w2 H1 H2)).
    now apply path_no_documents with r w1. }
  destruct (be_load_llm B w2) as [[l | e3] w3] eqn:H3.
  2: { rewrite (invoke_chain_handles B query w [] e3 _
                  (try_load_llm_raises B query w [] e3 r w1 d docs w2 w3 H1 H2 H3)).
       now apply path_load_llm_raises with r w1 w2. }
  destruct (be_retriever_invoke B r query w3) as [[docs' | e4] w4] eqn:H4.
  2: { rewrite (invoke_chain_handles B query w [] e4 _
                  (try_chain_search_raises B query w [] e4 r w1 d docs w2 l w3 w4
                     H1 H2 H3 H4)).
       now apply path_chain_search_raises with r w1 w2 l w3. }
  destruct (be_llm_invoke B l (chain_prompt B docs' query) w4)
    as [[message | e5] w5] eqn:H5.
  - rewrite (invoke_chain_passes B query w [] _ _
               (try_success B query w [] r w1 d docs w2 l w3 docs' w4 message w5
                  H1 H2 H3 H4 H5)).
    now apply path_success with r w1 w2 l w3 w4.
  - rewrite (invoke_chain_handles B query w [] e5 _
               (try_generation_raises B query w [] e5 r w1 d docs w2 l w3 docs' w4 w5
                  H1 H2 H3 H4 H5)).
    now apply path_generation_raises with r w1 w2 l w3 w4.
Qed.

(** X1.  Whatever the collaborators answer, the provider calls of a run of
    [invoke_chain] are, in the order they are made, a beginning of: a
    similarity search with the question, a second similarity search with
    the question, one prompt sent to the model.  So the question goes
    verbatim to at most two searches, at most one prompt is sent, and it is
    sent only after both searches; and the run starts by obtaining the
    retriever. *)
Theorem invoke_chain_call_bounds (B : Backend) (query : string) (w : world B) :
  head (trace_of B query w) = Some EvLoadRetriever /\
  (provider_calls (trace_of B query w) = [] \/
   provider_calls (trace_of B query w) = [EvSearch query] \/
   provider_calls (trace_of B query w) = [EvSearch query; EvSearch query] \/
   exists prompt,
     provider_calls (trace_of B query w)
       = [EvSearch query; EvSearch query; EvGenerate prompt]).
Proof.
  unfold trace_of.
  destruct (invoke_chain_run_path B query w); cbn; split; eauto 6.
Qed.

(** X2.  The model is loaded only when the probing search found a
    document: a run in which [load_llm] is called is one where the
    retriever was obtained and the first search returned a non-empty
    list. *)
Theorem llm_loaded_only_with_documents (B : Backend) (query : string) (w : world B) :
  In EvLoadLlm (trace_of B query w) ->
  exists r w1 d docs w2,
    be_load_retriever B w = (Ret r, w1) /\
    be_retriever_invoke B r query w1 = (Ret (d :: docs), w2).
Proof.
  unfold trace_of.
  destruct (invoke_chain_run_path B query w); cbn; intros Hin;
    try (repeat (destruct Hin as [Hin | Hin]; try discriminate Hin); now destruct Hin);
    eauto 10.
Qed.

Lemma llm_loaded_only_with_documents_witness :
  In EvLoadLlm (trace_of (scripted script_success) "test query" 0%nat) /\
  exists r w1 d docs w2,
    be_load_retriever (scripted script_success) 0%nat = (Ret r, w1) /\
    be_retriever_invoke (scripted script_success) r "test query" w1
      = (Ret (d :: docs), w2).
Proof.
  assert (In EvLoadLlm (trace_of (scripted script_success) "test query" 0%nat)) as Hin.
  { vm_compute. tauto. }
  split; [exact Hin |].
  exact (llm_loaded_only_with_documents (scripted script_success) "test query" 0%nat Hin).
Defined.

(** X3.  The guard against an empty context looks at the probing search
    only: when the probe finds a document and the search of the chain then
    returns no document, the model is still called, with the text [[]] as
    the context of the prompt, and its reply is returned. *)
Theorem empty_chain_search_reaches_model (B : Backend) (query : string) (w : world B)
    r w1 d docs w2 l w3 w4 message w5 :
  be_load_retriever B w = (Ret r, w1) ->
  be_retriever_invoke B r query w1 = (Ret (d :: docs), w2) ->
  be_load_llm B w2 = (Ret l, w3) ->
  be_retriever_invoke B r query w3 = (Ret [], w4) ->
  be_llm_invoke B l
    (prompt_head +:+ "[]" +:+ prompt_middle +:+ query +:+ prompt_tail) w4
    = (Ret message, w5) ->
  fst (run (invoke_chain B query) w) = Ret (content message) /\
  generations (trace_of B query w) =
    [prompt_head +:+ "[]" +:+ prompt_middle +:+ query +:+ prompt_tail].
Proof.
  intros H1 H2 H3 H4 H5.
  assert (chain_prompt B [] query =
          prompt_head +:+ "[]" +:+ prompt_middle +:+ query +:+ prompt_tail) as Hp
    by reflexivity.
  rewrite <- Hp in H5. unfold trace_of.
  rewrite (invoke_chain_success B query w r w1 d docs w2 l w3 [] w4 message w5
             H1 H2 H3 H4 H5).
  split; [reflexivity |]. cbn [snd st_trace generations omap]. now rewrite Hp.
Qed.

Lemma empty_chain_search_reaches_model_witness :
  be_retriever_invoke (scripted script_vanishing) tt "test query" 0%nat
    = (Ret [doc "Test product content"], 1%nat) /\
  be_retriever_invoke (scripted script_vanishing) tt "test query" 1%nat
    = (Ret [], 2%nat) /\
  fst (run (invoke_chain (scripted script_vanishing) "test query") 0%nat)
    = Ret "AI response" /\
  generations (trace_of (scripted script_vanishing) "test query" 0%nat) =
    [prompt_head +:+ "[]" +:+ prompt_middle +:+ "test query" +:+ prompt_tail].
Proof.
  split; [reflexivity |]. split; [reflexivity |].
  exact (empty_chain_search_reaches_model (scripted script_vanishing) "test query"
           0%nat tt 0%nat (doc "Test product content") [] 1%nat tt 1%nat 2%nat
           {| content := "AI response" |} 2%nat
           eq_refl eq_refl eq_refl eq_refl eq_refl).
Defined.

(** X4.  When a step raises [e], the failure is logged and nothing else is
    done.  For each step that can raise, the events of the run are the
    calls made up to and including the one that failed, followed by the
    line [Error in invoke_chain: str(e)] and by nothing else: after a
    failure of the retriever no search is made, after a failing search the
    model is neither loaded nor called, after a failure to load the model
    no second search is made, and after a failing second search no prompt
    is sent. *)
Theorem invoke_chain_logs_error (B : Backend) (query : string) (w : world B)
    (e : py_exception) :
  (forall w1,
     be_load_retriever B w = (Raise e, w1) ->
     trace_of B query w = [EvLoadRetriever; EvPrint (error_line e)]) /\
  (forall r w1 w2,
     be_load_retriever B w = (Ret r, w1) ->
     be_retriever_invoke B r query w1 = (Raise e, w2) ->
     trace_of B query w =
       [EvLoadRetriever; EvSearch query; EvPrint (error_line e)]) /\
  (forall r w1 d docs w2 w3,
     be_load_retriever B w = (Ret r, w1) ->
     be_retriever_invoke B r query w1 = (Ret (d :: docs), w2) ->
     be_load_llm B w2 = (Raise e, w3) ->
     trace_of B query w =
       [EvLoadRetriever; EvSearch query;
        EvPrint (found_line (d :: docs) query); EvPrint (sample_line d);
        EvLoadLlm; EvPrint (error_line e)]) /\
  (forall r w1 d docs w2 l w3 w4,
     be_load_retriever B w = (Ret r, w1) ->
     be_retriever_invoke B r query w1 = (Ret (d :: docs), w2) ->
     be_load_llm B w2 = (Ret l, w3) ->
     be_retriever_invoke B r query w3 = (Raise e, w4) ->
     trace_of B query w =
       [EvLoadRetriever; EvSearch query;
        EvPrint (found_line (d :: docs) query); EvPrint (sample_line d);
        EvLoadLlm; EvSearch query; EvPrint (error_line e)]) /\
  (forall r w1 d docs w2 l w3 docs' w4 w5,
     be_load_retriever B w = (Ret r, w1) ->
     be_retriever_invoke B r query w1 = (Ret (d :: docs), w2) ->
     be_load_llm B w2 = (Ret l, w3) ->
     be_retriever_invoke B r query w3 = (Ret docs', w4) ->
     be_llm_invoke B l (chain_prompt B docs' query) w4 = (Raise e, w5) ->
     trace_of B query w =
       [EvLoadRetriever; EvSearch query;
        EvPrint (found_line (d :: docs) query); EvPrint (sample_line d);
        EvLoadLlm; EvSearch query; EvGenerate (chain_prompt B docs' query);
        EvPrint (error_line e)]).
Proof.
  unfold trace_of, run. repeat split.
  - intros w1 H1.
    now rewrite (invoke_chain_handles B query w [] e _
                   (try_load_retriever_raises B query w [] e w1 H1)).
  - intros r w1 w2 H1 H2.
    now rewrite (invoke_chain_handles B query w [] e _
                   (try_first_search_raises B query w [] e r w1 w2 H1 H2)).
  - intros r w1 d docs w2 w3 H1 H2 H3.
    now rewrite (invoke_chain_handles B query w [] e _
                   (try_load_llm_raises B query w [] e r w1 d docs w2 w3 H1 H2 H3)).
  - intros r w1 d docs w2 l w3 w4 H1 H2 H3 H4.
    now rewrite (invoke_chain_handles B query w [] e _
                   (try_chain_search_raises B query w [] e r w1 d docs w2 l w3 w4
                      H1 H2 H3 H4)).
  - intros r w1 d docs w2 l w3 docs' w4 w5 H1 H2 H3 H4 H5.
    now rewrite (invoke_chain_handles B query w [] e _
                   (try_generation_raises B query w [] e r w1 d docs w2 l w3 docs'
                      w4 w5 H1 H2 H3 H4 H5)).
Qed.

Lemma invoke_chain_logs_error_witness :
  be_llm_invoke (scripted script_generation_fails) tt
    (chain_prompt (scripted script_generation_fails)
       [doc "Test product content"] "test query") 2%nat
    = (Raise (PyExc "Exception" "quota exceeded"), 2%nat) /\
  trace_of (scripted script_generation_fails) "test query" 0%nat =
    [EvLoadRetriever; EvSearch "test query";
     EvPrint (found_line [doc "Test product content"] "test query");
     EvPrint (sample_line (doc "Test product content"));
     EvLoadLlm; EvSearch "test query";
     EvGenerate (chain_prompt (scripted script_generation_fails)
                   [doc "Test product content"] "test query");
     EvPrint "Error in invoke_chain: quota exceeded"].
Proof.
  split; [reflexivity |].
  destruct (invoke_chain_logs_error (scripted script_generation_fails) "test query"
              0%nat (PyExc "Exception" "quota exceeded"))
    as (_ & _ & _ & _ & Hgen).
  exact (Hgen tt 0%nat (doc "Test product content") [] 1%nat tt 1%nat
           [doc "Test product content"] 2%nat 2%nat
           eq_refl eq_refl eq_refl eq_refl eq_refl).
Defined.

(** ** The HTTP front end *)

(** X5.  [chat] never raises: for every message it returns the object
    [{"response": text}] where [text] is what [invoke_chain] returned for
    that message, and its last effect is the line [Response: text]. *)
Theorem chat_contract (B : Backend) (msg : string) (s : state B) :
  exists text,
    fst (invoke_chain B msg s) = Ret text /\
    fst (chat B msg s) = Ret (JObject [("response", text)]) /\
    last (st_trace (snd (chat B msg s))) = Some (EvPrint ("Response: " +:+ text)) /\
    st_world (snd (chat B msg s)) = st_world (snd (invoke_chain B msg s)).
Proof.
  destruct (chat_returns B msg s) as (text & s' & H & Hchat).
  exists text. rewrite H, Hchat. cbn [fst snd st_trace st_world].
  repeat split. apply last_snoc.
Qed.

(** ** The prompt template *)

Lemma has_char_append (c : ascii) (a b : string) :
  has_char c (a +:+ b) = has_char c a || has_char c b.
Proof.
  induction a as [|x a IH]; [reflexivity |].
  rewrite append_cons. cbn [has_char]. rewrite IH. now rewrite orb_assoc.
Qed.

Lemma has_char_Contains (c : ascii) (needle hay : string) :
  Contains needle hay -> has_char c needle = true -> has_char c hay = true.
Proof.
  intros (pre & post & ->) H. rewrite !has_char_append, H.
  now rewrite orb_true_r.
Qed.

(** X8.  Formatting the [product_bot] template with a context and a
    question never fails, whatever the two texts are, and the result
    contains both as they were given.  When neither of them has an opening
    brace, the result has none either, so that no placeholder is left in
    it. *)
Theorem product_bot_no_placeholder_left (context question : string) :
  exists prompt,
    render_product_bot context question = Ret prompt /\
    Contains context prompt /\
    Contains question prompt /\
    (has_char lbrace context = false ->
     has_char lbrace question = false ->
     has_char lbrace prompt = false /\
     ~ Contains "{context}" prompt /\
     ~ Contains "{question}" prompt).
Proof.
  eexists. split; [apply render_product_bot_eq |].
  split; [apply Contains_middle |].
  split; [do 3 apply Contains_app_r; apply Contains_prefix |].
  intros Hc Hq.
  assert (has_char lbrace
            (prompt_head +:+ context +:+ prompt_middle +:+ question +:+ prompt_tail)
          = false) as Hnone.
  { rewrite !has_char_append, Hc, Hq. vm_compute. reflexivity. }
  split; [exact Hnone |]. split.
  - intros H. apply (has_char_Contains lbrace) in H; [congruence | reflexivity].
  - intros H. apply (has_char_Contains lbrace) in H; [congruence | reflexivity].
Qed.

Lemma product_bot_no_placeholder_left_witness :
  has_char lbrace "Product: Test Headphones" = false /\
  has_char lbrace "Tell me about these headphones" = false /\
  exists prompt,
    render_product_bot "Product: Test Headphones" "Tell me about these headphones"
      = Ret prompt /\
    ~ Contains "{context}" prompt /\
    ~ Contains "{question}" prompt.
Proof.
  split; [reflexivity |]. split; [reflexivity |].
  destruct (product_bot_no_placeholder_left "Product: Test Headphones"
              "Tell me about these headphones")
    as (prompt & Hr & _ & _ & Hnone).
  destruct (Hnone eq_refl eq_refl) as (_ & Hc & Hq).
  exists prompt. auto.
Defined.

(** ** The set-up script *)

Lemma collect_missing_nil (environ : environment) (vars : list string) :
  collect_missing environ vars = [] <->
  forall var, In var vars -> truthy (getenv environ var) = true.
Proof.
  split.
  - intros Hnil var Hvar.
    destruct (truthy (getenv environ var)) eqn:E; [reflexivity |].
    assert (In var (collect_missing environ vars)) as Hin.
    { apply In_collect_missing. split; [exact Hvar | now apply truthy_false]. }
    rewrite Hnil in Hin. destruct Hin.
  - intros Hall.
    destruct (collect_missing environ vars) as [|v vs] eqn:E; [reflexivity |].
    assert (In v (collect_missing environ vars)) as Hin by (rewrite E; now left).
    apply In_collect_missing in Hin as [Hv Hfalse].
    apply truthy_false in Hfalse. rewrite (Hall v Hv) in Hfalse. discriminate.
Qed.

(** X9.  [check_environment] returns [True] exactly when each of the four
    required variables has a non-empty value once the [.env] file is
    loaded; it then prints the single line that all variables are set. *)
Theorem check_environment_success (dotenv environ : environment) :
  (fst (check_environment dotenv environ) = true <->
   forall var, In var required_vars ->
     exists c value, getenv (load_dotenv dotenv environ) var = Some (String c value)) /\
  (fst (check_environment dotenv environ) = true ->
   snd (check_environment dotenv environ) = ["✅ All environment variables are set."]).
Proof.
  assert (forall v : option string,
             truthy v = true <-> exists c value, v = Some (String c value)) as Htruthy.
  { intros [[|c value]|]; cbn; split; try discriminate; eauto.
    - intros (c & value & H). discriminate H.
    - intros (c & value & H). discriminate H. }
  unfold check_environment.
  destruct (collect_missing (load_dotenv dotenv environ) required_vars)
    as [|v vs] eqn:E; cbn [fst snd].
  - split; [| reflexivity]. split; [| reflexivity].
    intros _ var Hvar. apply Htruthy.
    now apply (proj1 (collect_missing_nil _ _) E).
  - split; [| discriminate]. split; [discriminate |].
    intros Hall. exfalso.
    assert (collect_missing (load_dotenv dotenv environ) required_vars = []) as Hnil.
    { apply collect_missing_nil. intros var Hvar. apply Htruthy. now apply Hall. }
    congruence.
Qed.

Lemma check_environment_success_witness :
  fst (check_environment ∅ env_empty_google) = false /\
  (fst (check_environment env_only_google
          (delete "GOOGLE_API_KEY" env_empty_google)) = true ->
   snd (check_environment env_only_google
          (delete "GOOGLE_API_KEY" env_empty_google))
   = ["✅ All environment variables are set."]) /\
  fst (check_environment env_only_google
         (delete "GOOGLE_API_KEY" env_empty_google)) = true.
Proof.
  split; [vm_compute; reflexivity |].
  split.
  - exact (proj2 (check_environment_success env_only_google
                    (delete "GOOGLE_API_KEY" env_empty_google))).
  - vm_compute. reflexivity.
Defined.

(** X10.  A required variable that the process environment does not define
    and to which the [.env] file gives a non-empty value is not reported
    missing. *)
Theorem dotenv_supplies_variable (dotenv environ : environment)
    (var : string) (c : ascii) (value : string) :
  In var required_vars ->
  environ !! var = None ->
  dotenv !! var = Some (String c value) ->
  getenv (load_dotenv dotenv environ) var = Some (String c value) /\
  ~ In var (collect_missing (load_dotenv dotenv environ) required_vars) /\
  ~ In (missing_line var) (snd (check_environment dotenv environ)).
Proof.
  intros Hvar Henv Hdot.
  assert (getenv (load_dotenv dotenv environ) var = Some (String c value)) as Hget.
  { unfold getenv, load_dotenv. rewrite lookup_union, Henv, Hdot. reflexivity. }
  assert (~ In var (collect_missing (load_dotenv dotenv environ) required_vars))
    as Hnot.
  { intros Hin. apply In_collect_missing in Hin as [_ [H | H]];
      rewrite Hget in H; discriminate H. }
  split; [exact Hget |]. split; [exact Hnot |].
  unfold check_environment.
  destruct (collect_missing (load_dotenv dotenv environ) required_vars)
    as [|v vs] eqn:E; cbn [snd].
  - intros [H | []]. unfold missing_line in H. discriminate H.
  - intros Hin. apply Hnot. exact (proj1 (In_missing_line var (v :: vs)) Hin).
Qed.

Lemma dotenv_supplies_variable_witness :
  In "GOOGLE_API_KEY" required_vars /\
  (delete "GOOGLE_API_KEY" env_empty_google) !! "GOOGLE_API_KEY" = None /\
  env_only_google !! "GOOGLE_API_KEY" = Some "test_key" /\
  ~ In (missing_line "GOOGLE_API_KEY")
      (snd (check_environment env_only_google
              (delete "GOOGLE_API_KEY" env_empty_google))).
Proof.
  assert (In "GOOGLE_API_KEY" required_vars) as Hvar by (cbn; tauto).
  split; [exact Hvar |]. split; [reflexivity |]. split; [reflexivity |].
  exact (proj2 (proj2 (dotenv_supplies_variable env_only_google
                         (delete "GOOGLE_API_KEY" env_empty_google)
                         "GOOGLE_API_KEY" "t"%char "est_key"
                         Hvar eq_refl eq_refl))).
Defined.

Lemma last_app_two {A} (l : list A) (a b : A) : last (l ++ [a; b]) = Some b.
Proof.
  change [a; b] with ([a] ++ [b]). rewrite app_assoc. apply last_snoc.
Qed.

(** X11.  The set-up script stops at the first step that fails.  When the
    environment check fails, nothing is ingested, the retriever is not
    tested and the last line printed is the one about the environment;
    when the check passes and populating the database fails, the retriever
    is not tested and the last line printed is the one about the
    database. *)
Theorem setup_stops_at_failure (dotenv environ : environment)
    (render_row : gmap string string -> string) (source : option table)
    (call_retriever : string -> outcome (list Document)) :
  (fst (check_environment dotenv environ) = false ->
   sr_ingestion (setup_main dotenv environ render_row source call_retriever) = [] /\
   sr_queries (setup_main dotenv environ render_row source call_retriever) = [] /\
   last (sr_printed (setup_main dotenv environ render_row source call_retriever))
     = Some ENVIRONMENT_FAILED) /\
  (fst (check_environment dotenv environ) = true ->
   fst (fst (populate_database render_row source)) = false ->
   sr_queries (setup_main dotenv environ render_row source call_retriever) = [] /\
   last (sr_printed (setup_main dotenv environ render_row source call_retriever))
     = Some POPULATE_FAILED).
Proof.
  unfold setup_main.
  destruct (check_environment dotenv environ) as [env_ok env_lines].
  destruct (populate_database render_row source) as [[populated populate_lines] evs].
  destruct (test_retriever call_retriever) as [tested test_lines].
  cbn [fst snd]. split.
  - intros ->. cbn [negb sr_ingestion sr_queries sr_printed].
    split; [reflexivity |]. split; [reflexivity |].
    rewrite app_assoc. apply last_snoc.
  - intros -> ->. cbn [negb sr_queries sr_printed].
    split; [reflexivity |].
    rewrite !app_assoc. apply last_snoc.
Qed.

Lemma setup_stops_at_failure_witness :
  fst (check_environment ∅ env_only_google) = false /\
  sr_ingestion (setup_main ∅ env_only_google (fun _ => "") None (fun _ => Ret [])) = [] /\
  sr_queries (setup_main ∅ env_only_google (fun _ => "") None (fun _ => Ret [])) = [] /\
  fst (check_environment env_only_google (delete "GOOGLE_API_KEY" env_empty_google))
    = true /\
  fst (fst (populate_database (fun _ => "") None)) = false /\
  sr_queries (setup_main env_only_google (delete "GOOGLE_API_KEY" env_empty_google)
                (fun _ => "") None (fun _ => Ret [])) = [].
Proof.
  assert (fst (check_environment ∅ env_only_google) = false) as H1
    by (vm_compute; reflexivity).
  assert (fst (check_environment env_only_google
                 (delete "GOOGLE_API_KEY" env_empty_google)) = true) as H2
    by (vm_compute; reflexivity).
  split; [exact H1 |].
  destruct (proj1 (setup_stops_at_failure ∅ env_only_google (fun _ => "") None
                     (fun _ => Ret [])) H1) as (Hi & Hq & _).
  split; [exact Hi |]. split; [exact Hq |]. split; [exact H2 |].
  split; [reflexivity |].
  exact (proj1 (proj2 (setup_stops_at_failure env_only_google
                         (delete "GOOGLE_API_KEY" env_empty_google)
                         (fun _ => "") None (fun _ => Ret [])) H2 eq_refl)).
Defined.

(** X12.  The set-up script ends with its completion lines exactly when the
    environment check and the population of the database both succeed,
    whatever the retriever test gives, and those are the runs in which the
    retriever test is made, once, with the fixed test question. *)
Theorem setup_complete_iff (dotenv environ : environment)
    (render_row : gmap string string -> string) (source : option table)
    (call_retriever : string -> outcome (list Document)) :
  (last (sr_printed (setup_main dotenv environ render_row source call_retriever))
     = Some "💡 You can now run: uvicorn main:app --reload" <->
   fst (check_environment dotenv environ) = true /\
   fst (fst (populate_database render_row source)) = true) /\
  (sr_queries (setup_main dotenv environ render_row source call_retriever)
     = ["Can you suggest good budget laptops?"] <->
   fst (check_environment dotenv environ) = true /\
   fst (fst (populate_database render_row source)) = true).
Proof.
  unfold setup_main.
  destruct (check_environment dotenv environ) as [env_ok env_lines].
  destruct (populate_database render_row source) as [[populated populate_lines] evs].
  destruct (test_retriever call_retriever) as [tested test_lines].
  cbn [fst snd].
  destruct env_ok; cbn [negb sr_queries sr_printed].
  - destruct populated; cbn [negb sr_queries sr_printed].
    + split; split; auto; intros _.
      unfold SETUP_COMPLETE. rewrite !app_assoc. apply last_app_two.
    + split; split; try (intros [_ H]; discriminate H); try discriminate.
      rewrite !app_assoc, last_snoc. unfold POPULATE_FAILED.
      intros H; discriminate H.
  - split; split; try (intros [H _]; discriminate H); try discriminate.
    rewrite app_assoc, last_snoc. unfold ENVIRONMENT_FAILED.
    intros H; discriminate H.
Qed.

(** X13.  After a successful population the script completes even when the
    retriever finds nothing or fails: with zero documents the test counts
    as passed and no warning is printed; when the retriever raises, the
    failure and a two-line warning are printed before the completion
    lines. *)
Theorem setup_retriever_test_is_advisory (dotenv environ : environment)
    (render_row : gmap string string -> string) (source : option table)
    (call_retriever : string -> outcome (list Document)) :
  fst (check_environment dotenv environ) = true ->
  fst (fst (populate_database render_row source)) = true ->
  (call_retriever TEST_QUERY = Ret [] ->
   sr_printed (setup_main dotenv environ render_row source call_retriever) =
     SETUP_BANNER
       ++ ["✅ All environment variables are set."; POPULATING;
           "🚀 Starting data ingestion..."; "✅ Database populated successfully!";
           TESTING; "🔍 Testing retriever...";
           "✅ Retriever test successful! Found 0 documents."]
       ++ SETUP_COMPLETE) /\
  (forall e, call_retriever TEST_QUERY = Raise e ->
   sr_printed (setup_main dotenv environ render_row source call_retriever) =
     SETUP_BANNER
       ++ ["✅ All environment variables are set."; POPULATING;
           "🚀 Starting data ingestion..."; "✅ Database populated successfully!";
           TESTING; "🔍 Testing retriever...";
           "❌ Retriever test failed: " +:+ exc_str e]
       ++ RETRIEVER_WARNING ++ SETUP_COMPLETE).
Proof.
  intros Henv Hpop.
  assert (check_environment dotenv environ
          = (true, ["✅ All environment variables are set."])) as Echeck.
  { unfold check_environment in *.
    destruct (collect_missing (load_dotenv dotenv environ) required_vars);
      [reflexivity | discriminate Henv]. }
  assert (exists evs, populate_database render_row source
          = (true, ["🚀 Starting data ingestion..."; "✅ Database populated successfully!"],
             evs)) as [evs Epop].
  { unfold populate_database in *.
    destruct (DataIngestion_init source) as [[ingestion | e] evs0].
    - destruct (run_pipeline render_row ingestion) as [n evs1]. eauto.
    - discriminate Hpop. }
  unfold setup_main. rewrite Echeck, Epop. cbn [negb]. unfold test_retriever.
  split.
  - intros ->. reflexivity.
  - intros e ->. reflexivity.
Qed.

Lemma setup_retriever_test_is_advisory_witness :
  fst (check_environment env_only_google (delete "GOOGLE_API_KEY" env_empty_google))
    = true /\
  fst (fst (populate_database (fun _ => "")
              (Some {| columns := REQUIRED_COLUMNS; rows := [] |}))) = true /\
  last (sr_printed
          (setup_main env_only_google (delete "GOOGLE_API_KEY" env_empty_google)
             (fun _ => "") (Some {| columns := REQUIRED_COLUMNS; rows := [] |})
             (fun _ => Raise (PyExc "Exception" "no connection"))))
    = Some "💡 You can now run: uvicorn main:app --reload".
Proof.
  assert (fst (check_environment env_only_google
                 (delete "GOOGLE_API_KEY" env_empty_google)) = true) as H1
    by (vm_compute; reflexivity).
  split; [exact H1 |]. split; [reflexivity |].
  rewrite (proj2 (setup_retriever_test_is_advisory env_only_google
                    (delete "GOOGLE_API_KEY" env_empty_google) (fun _ => "")
                    (Some {| columns := REQUIRED_COLUMNS; rows := [] |})
                    (fun _ => Raise (PyExc "Exception" "no connection"))
                    H1 eq_refl)
             (PyExc "Exception" "no connection") eq_refl).
  reflexivity.
Defined.

Lemma setup_complete_iff_witness :
  fst (check_environment env_only_google (delete "GOOGLE_API_KEY" env_empty_google))
    = true /\
  fst (fst (populate_database (fun _ => "")
              (Some {| columns := REQUIRED_COLUMNS; rows := [] |}))) = true /\
  sr_queries
    (setup_main env_only_google (delete "GOOGLE_API_KEY" env_empty_google)
       (fun _ => "") (Some {| columns := REQUIRED_COLUMNS; rows := [] |})
       (fun _ => Ret []))
    = ["Can you suggest good budget laptops?"].
Proof.
  assert (fst (check_environment env_only_google
                 (delete "GOOGLE_API_KEY" env_empty_google)) = true) as H1
    by (vm_compute; reflexivity).
  split; [exact H1 |]. split; [reflexivity |].
  exact (proj2 (proj2 (setup_complete_iff env_only_google
                         (delete "GOOGLE_API_KEY" env_empty_google) (fun _ => "")
                         (Some {| columns := REQUIRED_COLUMNS; rows := [] |})
                         (fun _ => Ret [])))
           (conj H1 eq_refl)).
Defined.

(** ** The test runner *)

(** X14.  Without coverage the output format is ignored unless it is
    [junit]: the command built for [html] or [xml] is the command built
    for [terminal], so no report is asked for; the coverage report options
    appear only in a command built with coverage. *)
Theorem run_tests_format_needs_coverage (test_type : string) (verbose : bool)
    (output_format : string) :
  output_format <> "junit" ->
  run_tests_command test_type verbose false output_format
    = run_tests_command test_type verbose false "terminal" /\
  run_tests_command test_type verbose false output_format
    = ["python"; "-m"; "pytest"]
        ++ (if String.eqb test_type "all" then [] else ["-m"; test_type])
        ++ (if verbose then ["-v"] else ["-q"])
        ++ ["tests/"].
Proof.
  intros Hfmt. apply String.eqb_neq in Hfmt.
  unfold run_tests_command. rewrite Hfmt. split; reflexivity.
Qed.

Lemma run_tests_format_needs_coverage_witness :
  "html" <> "junit" /\
  run_tests_command "unit" true false "html" = ["python"; "-m"; "pytest"; "-m"; "unit"; "-v"; "tests/"].
Proof.
  assert ("html" <> "junit") as H by discriminate.
  split; [exact H |].
  exact (proj2 (run_tests_format_needs_coverage "unit" true "html" H)).
Defined.

(** X15.  For a test type among the runner's choices, the command starts
    with [python -m pytest] and ends with the tests directory; it has [-v]
    exactly when verbose output is asked and [-q] exactly when it is not;
    and it has the JUnit option exactly when the format is [junit], with or
    without coverage. *)
Theorem run_tests_command_shape (test_type : string) (verbose coverage : bool)
    (output_format : string) :
  In test_type ["unit"; "integration"; "api"; "slow"; "all"] ->
  take 3 (run_tests_command test_type verbose coverage output_format)
    = ["python"; "-m"; "pytest"] /\
  last (run_tests_command test_type verbose coverage output_format) = Some "tests/" /\
  (In "-v" (run_tests_command test_type verbose coverage output_format)
     <-> verbose = true) /\
  (In "-q" (run_tests_command test_type verbose coverage output_format)
     <-> verbose = false) /\
  (In "--junit-xml=test-results.xml"
      (run_tests_command test_type verbose coverage output_format)
     <-> output_format = "junit").
Proof.
  intros Htype. split; [reflexivity |]. split.
  { unfold run_tests_command. rewrite !app_assoc. apply last_snoc. }
  unfold run_tests_command.
  destruct (String.eqb_spec output_format "junit") as [-> | Hj].
  - cbn in Htype.
    destruct Htype as [<- | [<- | [<- | [<- | [<- | []]]]]];
      destruct verbose, coverage; cbn;
      repeat split; intros; try discriminate; try tauto;
      repeat match goal with
             | H : _ \/ _ |- _ => destruct H
             | H : False |- _ => destruct H
             | H : _ = _ |- _ => discriminate H
             end.
  - destruct (String.eqb_spec output_format "html") as [-> | Hh];
      [| destruct (String.eqb_spec output_format "xml") as [-> | Hx]];
      cbn in Htype;
      destruct Htype as [<- | [<- | [<- | [<- | [<- | []]]]]];
      destruct verbose, coverage; cbn;
      repeat split; intros; try discriminate; try tauto; try congruence;
      repeat match goal with
             | H : _ \/ _ |- _ => destruct H
             | H : False |- _ => destruct H
             | H : _ = _ |- _ => discriminate H
             end.
Qed.

Lemma run_tests_command_shape_witness :
  In "api" ["unit"; "integration"; "api"; "slow"; "all"] /\
  last (run_tests_command "api" false true "junit") = Some "tests/" /\
  (In "--junit-xml=test-results.xml" (run_tests_command "api" false true "junit")
     <-> "junit" = "junit").
Proof.
  assert (In "api" ["unit"; "integration"; "api"; "slow"; "all"]) as H
    by (cbn; tauto).
  split; [exact H |].
  destruct (run_tests_command_shape "api" false true "junit" H)
    as (_ & Hlast & _ & _ & Hjunit).
  split; [exact Hlast | exact Hjunit].
Defined.

(** ** The mock vector store of the tests *)

(** X16.  [similarity_search] ignores the query.  For a non-negative [k]
    it returns the first [k] stored documents, in the order they were
    added, all of them when fewer are stored.  For a negative [k] it
    returns the stored documents without the last [-k] of them: the store
    is the result followed by the documents dropped, which are [-k], or
    all of them when fewer are stored. *)
Theorem similarity_search_prefix (self : MockAstraDBVectorStore)
    (query : string) (k : Z) :
  (forall query', similarity_search self query' k = similarity_search self query k) /\
  (0 <= k ->
   similarity_search self query k = take (Z.to_nat k) (_documents self) /\
   length (similarity_search self query k)
     = Nat.min (Z.to_nat k) (length (_documents self))) /\
  (k < 0 ->
   similarity_search self query k
     = take (length (_documents self) - Z.to_nat (- k)) (_documents self) /\
   exists dropped,
     _documents self = similarity_search self query k ++ dropped /\
     length dropped = Nat.min (Z.to_nat (- k)) (length (_documents self))).
Proof.
  unfold similarity_search, py_slice_to. split; [reflexivity |]. split.
  - intros Hk. destruct (Z.leb_spec 0 k); [| lia].
    split; [reflexivity | apply length_take].
  - intros Hk. destruct (Z.leb_spec 0 k); [lia |].
    split; [reflexivity |].
    exists (drop (length (_documents self) - Z.to_nat (- k)) (_documents self)).
    split; [now rewrite take_drop |].
    rewrite length_drop. lia.
Qed.

Lemma similarity_search_prefix_witness :
  0 <= 1 /\
  similarity_search
    (snd (add_documents (MockAstraDBVectorStore_init ∅)
            [doc "Wireless Headphones"; doc "Gaming Laptop"]))
    "laptop" 1
  = [doc "Wireless Headphones"] /\
  -1 < 0 /\
  similarity_search
    (snd (add_documents (MockAstraDBVectorStore_init ∅)
            [doc "Wireless Headphones"; doc "Gaming Laptop"]))
    "laptop" (-1)
  = [doc "Wireless Headphones"].
Proof.
  assert (0 <= 1) as Hk by lia.
  assert (-1 < 0) as Hn by lia.
  split; [exact Hk |]. split.
  - rewrite (proj1 (proj1 (proj2 (similarity_search_prefix
                                    (snd (add_documents (MockAstraDBVectorStore_init ∅)
                                            [doc "Wireless Headphones"; doc "Gaming Laptop"]))
                                    "laptop" 1)) Hk)).
    reflexivity.
  - split; [exact Hn |].
    rewrite (proj1 (proj2 (proj2 (similarity_search_prefix
                                    (snd (add_documents (MockAstraDBVectorStore_init ∅)
                                            [doc "Wireless Headphones"; doc "Gaming Laptop"]))
                                    "laptop" (-1))) Hn)).
    reflexivity.
Defined.

Lemma doc_id_inj (i j : nat) : "doc_" +:+ pretty i = "doc_" +:+ pretty j -> i = j.
Proof. intros H. apply (inj (String.app "doc_")) in H. now apply (inj pretty) in H. Qed.

(** X17.  [add_documents] appends the batch to the store, so the documents
    already stored keep their rank, and returns one id for each document of
    the batch, all different; the ids are numbered from 0 in every batch,
    so two batches of the same size get the same ids. *)
Theorem add_documents_appends (self : MockAstraDBVectorStore)
    (documents : list Document) :
  _documents (snd (add_documents self documents)) = _documents self ++ documents /\
  (forall i d, _documents self !! i = Some d ->
               _documents (snd (add_documents self documents)) !! i = Some d) /\
  length (fst (add_documents self documents)) = length documents /\
  NoDup (fst (add_documents self documents)) /\
  (forall i, (i < length documents)%nat ->
             fst (add_documents self documents) !! i = Some ("doc_" +:+ pretty i)) /\
  (forall self' documents',
     length documents' = length documents ->
     fst (add_documents self' documents') = fst (add_documents self documents)).
Proof.
  unfold add_documents. cbn [fst snd _documents].
  split; [reflexivity |]. split.
  { intros i d Hi. now apply lookup_app_l_Some. }
  split; [now rewrite length_fmap, length_seq |]. split.
  { apply NoDup_fmap_2_strong; [| apply NoDup_seq].
    intros i j _ _. apply doc_id_inj. }
  split.
  { intros i Hi. rewrite list_lookup_fmap.
    rewrite lookup_seq_lt by exact Hi. reflexivity. }
  intros self' documents' ->. reflexivity.
Qed.

(** X18.  A retriever made by [as_retriever] reads the store when it is
    invoked, not when it is made: invoked after documents were added to a
    new store it returns the first [k] of them, where [k] is the entry
    [k] of [search_kwargs], and 3 when [search_kwargs] or its entry [k] is
    not given. *)
Theorem mock_retriever_reads_current_store (kwargs : gmap string string)
    (documents : list Document) (query : string) :
  mock_invoke (as_retriever None)
    (snd (add_documents (MockAstraDBVectorStore_init kwargs) documents)) query
    = take 3 documents /\
  (forall search_kwargs : gmap string Z,
     search_kwargs !! "k" = None ->
     mock_invoke (as_retriever (Some search_kwargs))
       (snd (add_documents (MockAstraDBVectorStore_init kwargs) documents)) query
     = take 3 documents) /\
  (forall (search_kwargs : gmap string Z) (k : Z),
     search_kwargs !! "k" = Some k ->
     0 <= k ->
     mock_invoke (as_retriever (Some search_kwargs))
       (snd (add_documents (MockAstraDBVectorStore_init kwargs) documents)) query
     = take (Z.to_nat k) documents) /\
  mock_invoke (as_retriever None) (MockAstraDBVectorStore_init kwargs) query = [].
Proof.
  unfold mock_invoke, as_retriever, similarity_search, add_documents,
    MockAstraDBVectorStore_init, default.
  cbn [snd _documents mr_search_kwargs from_option id app].
  split; [| split; [| split]].
  - rewrite lookup_empty. reflexivity.
  - intros search_kwargs ->. reflexivity.
  - intros search_kwargs k -> Hk. cbn [from_option id]. unfold py_slice_to.
    destruct (Z.leb_spec 0 k); [reflexivity | lia].
  - rewrite lookup_empty. reflexivity.
Qed.

Lemma mock_retriever_reads_current_store_witness :
  ({[ "k" := 1 ]} : gmap string Z) !! "k" = Some 1 /\
  0 <= 1 /\
  mock_invoke (as_retriever (Some {[ "k" := 1 ]}))
    (snd (add_documents (MockAstraDBVectorStore_init ∅)
            [doc "Wireless Headphones"; doc "Gaming Laptop"])) "laptop"
  = [doc "Wireless Headphones"].
Proof.
  assert (0 <= 1) as Hk by lia.
  split; [reflexivity |]. split; [exact Hk |].
  exact (proj1 (proj2 (proj2 (mock_retriever_reads_current_store ∅
                                [doc "Wireless Headphones"; doc "Gaming Laptop"]
                                "laptop")))
           {[ "k" := 1 ]} 1 eq_refl Hk).
Defined.

(** ** The markers given to the collected tests *)

Lemma has_marker_in_app (names : list string) (node : string) (ms added : list string) :
  has_marker_in names {| nodeid := node; markers := ms ++ added |}
  = has_marker_in names {| nodeid := node; markers := ms |}
    || has_marker_in names {| nodeid := node; markers := added |}.
Proof. unfold has_marker_in. cbn [markers]. apply existsb_app. Qed.

Lemma has_marker_in_weaken (item : test_item) :
  has_marker_in ["integration"; "api"; "slow"] item = true ->
  has_marker_in ["integration"; "api"; "slow"; "unit"] item = true.
Proof.
  unfold has_marker_in. rewrite !existsb_exists.
  intros (m & Hin & Hm). exists m. split; [exact Hin |].
  cbn [existsb] in *. rewrite !orb_false_r in Hm.
  apply orb_true_iff in Hm as [Hm | Hm]; [now rewrite Hm |].
  apply orb_true_iff in Hm as [Hm | Hm]; rewrite Hm, ?orb_true_r; reflexivity.
Qed.

Lemma nodeid_add_marker_if (b : bool) (item : test_item) (name : string) :
  nodeid (if b then add_marker item name else item) = nodeid item.
Proof. now destruct b. Qed.

(** The markers of a test after the three steps of the hook that read the
    node id. *)
Lemma modify_item_eq (item : test_item) :
  exists called_for,
    called_for =
      (if py_in "integration" (lower (nodeid item)) then ["integration"] else [])
        ++ (if py_in "api" (lower (nodeid item)) || py_in "test_main" (nodeid item)
            then ["api"] else [])
        ++ (if existsb (fun keyword => py_in keyword (lower (nodeid item)))
                 ["full_workflow"; "integration"; "complete"]
            then ["slow"] else []) /\
    modify_item item =
      {| nodeid := nodeid item;
         markers :=
           (markers item ++ called_for)
             ++ (if has_marker_in ["integration"; "api"; "slow"]
                      {| nodeid := nodeid item; markers := markers item ++ called_for |}
                 then [] else ["unit"]) |}.
Proof.
  eexists. split; [reflexivity |].
  unfold modify_item. cbv zeta. rewrite !nodeid_add_marker_if.
  destruct item as [node ms]. cbn [nodeid markers].
  destruct (py_in "integration" (lower node));
    destruct (py_in "api" (lower node) || py_in "test_main" node);
    destruct (existsb (fun keyword => py_in keyword (lower node))
                ["full_workflow"; "integration"; "complete"]);
    unfold add_marker; cbn [nodeid markers];
    rewrite <- ?app_assoc; cbn -[has_marker_in]; rewrite ?app_nil_r;
    match goal with
    | |- context [has_marker_in ?names ?it] => destruct (has_marker_in names it)
    end;
    cbn; rewrite <- ?app_assoc, ?app_nil_r; reflexivity.
Qed.

Lemma In_called_for (m : string) (b1 b2 b3 : bool) :
  In m ((if b1 then ["integration"] else [])
          ++ (if b2 then ["api"] else []) ++ (if b3 then ["slow"] else [])) ->
  m = "integration" \/ m = "api" \/ m = "slow".
Proof.
  destruct b1, b2, b3; cbn; intros H;
    repeat (destruct H as [H | H]; [subst; auto |]); destruct H.
Qed.

(** X19.  The hook never removes a marker and leaves the node id as it is.
    After it every test has at least one of the markers [integration],
    [api], [slow] and [unit]; a test whose node id mentions "integration"
    (in any letter case) gets both [integration] and [slow]; and [unit] is
    added only to a test that has none of the other three. *)
Theorem modify_item_markers (item : test_item) :
  nodeid (modify_item item) = nodeid item /\
  (exists added, markers (modify_item item) = markers item ++ added) /\
  has_marker_in ["integration"; "api"; "slow"; "unit"] (modify_item item) = true /\
  (py_in "integration" (lower (nodeid item)) = true ->
   In "integration" (markers (modify_item item)) /\
   In "slow" (markers (modify_item item))) /\
  (In "unit" (markers (modify_item item)) ->
   In "unit" (markers item) \/
   has_marker_in ["integration"; "api"; "slow"] (modify_item item) = false).
Proof.
  destruct (modify_item_eq item) as (called_for & Hcalled & Heq).
  rewrite Heq. cbn [nodeid markers].
  split; [reflexivity |].
  split; [rewrite <- app_assoc; eexists; reflexivity |].
  destruct (has_marker_in ["integration"; "api"; "slow"]
              {| nodeid := nodeid item; markers := markers item ++ called_for |})
    eqn:Hthree.
  - (* one of the three markers is present: [unit] is not added *)
    rewrite app_nil_r. split; [now apply has_marker_in_weaken |]. split.
    + intros Hint. rewrite Hcalled. cbn [existsb]. rewrite Hint.
      cbn [orb]. rewrite orb_true_r.
      rewrite !in_app_iff. cbn [In]. tauto.
    + intros Hunit. left. apply in_app_iff in Hunit as [H | H]; [exact H |].
      rewrite Hcalled in H. apply In_called_for in H.
      destruct H as [H | [H | H]]; discriminate H.
  - (* none of the three: [unit] is added last *)
    split; [rewrite has_marker_in_app; apply orb_true_iff; right; reflexivity |].
    split.
    + intros Hint. exfalso.
      rewrite has_marker_in_app in Hthree.
      apply orb_false_iff in Hthree as [_ Hthree].
      rewrite Hcalled, Hint in Hthree.
      rewrite has_marker_in_app in Hthree.
      apply orb_false_iff in Hthree as [Hthree _]. discriminate Hthree.
    + intros _. right. rewrite has_marker_in_app, Hthree. reflexivity.
Qed.

Lemma modify_item_markers_witness :
  py_in "integration"
    (lower "tests/test_retrieval.py::TestRetrieverIntegration::test_retriever_full_workflow")
    = true /\
  In "integration"
    (markers (modify_item
       {| nodeid := "tests/test_retrieval.py::TestRetrieverIntegration::test_retriever_full_workflow";
          markers := [] |})) /\
  In "slow"
    (markers (modify_item
       {| nodeid := "tests/test_retrieval.py::TestRetrieverIntegration::test_retriever_full_workflow";
          markers := [] |})).
Proof.
  assert (py_in "integration"
            (lower "tests/test_retrieval.py::TestRetrieverIntegration::test_retriever_full_workflow")
          = true) as H by (vm_compute; reflexivity).
  split; [exact H |].
  destruct (modify_item_markers
              {| nodeid := "tests/test_retrieval.py::TestRetrieverIntegration::test_retriever_full_workflow";
                 markers := [] |}) as (_ & _ & _ & Hboth & _).
  exact (Hboth H).
Defined.

Lemma add_documents_appends_witness :
  _documents (snd (add_documents (MockAstraDBVectorStore_init ∅)
                     [doc "Wireless Headphones"])) !! 0%nat
    = Some (doc "Wireless Headphones") /\
  _documents
    (snd (add_documents
            (snd (add_documents (MockAstraDBVectorStore_init ∅)
                    [doc "Wireless Headphones"]))
            [doc "Gaming Laptop"])) !! 0%nat
    = Some (doc "Wireless Headphones") /\
  fst (add_documents
         (snd (add_documents (MockAstraDBVectorStore_init ∅)
                 [doc "Wireless Headphones"]))
         [doc "Gaming Laptop"])
    = fst (add_documents (MockAstraDBVectorStore_init ∅) [doc "Wireless Headphones"]).
Proof.
  split; [reflexivity |].
  destruct (add_documents_appends
              (snd (add_documents (MockAstraDBVectorStore_init ∅)
                      [doc "Wireless Headphones"]))
              [doc "Gaming Laptop"]) as (_ & Hkeep & _).
  split; [exact (Hkeep 0%nat (doc "Wireless Headphones") eq_refl) |].
  destruct (add_documents_appends (MockAstraDBVectorStore_init ∅)
              [doc "Wireless Headphones"]) as (_ & _ & _ & _ & _ & Hids).
  exact (Hids _ [doc "Gaming Laptop"] eq_refl).
Defined.
